(** * thesisv2.py: a two-agent 1D world with pluggable NPC policies

    Shallow embedding of [src/thesisv2.py] and the verification of its
    step-transition logic.

    Python values are modelled as follows.
    - [int] is [Z] (unbounded).
    - [float] is IEEE-754 binary64, through the Standard Library's
      executable [SpecFloat]: the literals [0.0], [1.0] and [-1.0] are
      the canonical [spec_float] values and [+] is [SFadd].
    - A Python [list] of ints is a mutable object: it lives in a store and
      is named by a reference, so that aliasing and [.copy()] are visible.
    - [np.random] is a global random source: an unknown stream of draws
      together with the number of draws consumed so far.
    - Exceptions are explicit; the store survives a raise.
    - A decision function is a function of the environment it is shown,
      of the position it is given and of the random source; it returns an
      integer and changes nothing but the random source.

    The driver under [__main__] is modelled with its output: what [print]
    writes is kept as the values that are formatted, not as text. *)

From Stdlib Require Import ZArith Lia Floats.SpecFloat.
From stdpp Require Import base option list strings.

Open Scope Z_scope.

(** ** Python floats (binary64) *)

Module PyFloat.

Definition prec : Z := 53.
Definition emax : Z := 1024.

Definition float : Type := spec_float.

(** [float(z)] for an integer literal [z]. *)
Definition of_Z (z : Z) : float := binary_normalize prec emax z 0 false.

Definition add (x y : float) : float := SFadd prec emax x y.

Definition zero : float := Eval cbv in of_Z 0.
Definition one : float := Eval cbv in of_Z 1.
Definition minus_one : float := Eval cbv in of_Z (-1).

End PyFloat.

(** ** The numpy global random source *)

Module NpRandom.

(** [source] is the (unknown) stream of raw draws, [drawn] how many of
    them have been consumed. *)
Record RandomState : Type := mkRandomState {
  source : nat -> Z;
  drawn : nat
}.

(** [np.random.randint(high)]: an integer in [[0, high)]. *)
Definition randint (high : Z) (rs : RandomState) : Z * RandomState :=
  (source rs (drawn rs) mod high, mkRandomState (source rs) (S (drawn rs))).

End NpRandom.

(** ** The Python run time: store, exceptions, and the monad of effects *)

Module Py.

(** A reference to a list object: its index in the store. *)
Definition ref : Type := nat.

Inductive exn : Type :=
| AssertionError (msg : string)
| AttributeError (attr : string)
| IndexError
(** The store holds no object at a reference.  No Python program can
    observe this; it only arises for environments that were not built by
    the constructor. *)
| DanglingReference.

Record World : Type := mkWorld {
  heap : list (list Z);
  np_random : NpRandom.RandomState
}.

Inductive outcome (A : Type) : Type :=
| Returns (a : A)
| Raises (e : exn).
Arguments Returns {A} a.
Arguments Raises {A} e.

(** A computation reads and writes the world, and either returns or
    raises.  The world after a raise is the world at the raise. *)
Definition M (A : Type) : Type := World -> outcome A * World.

Definition ret {A} (a : A) : M A := fun w => (Returns a, w).

Definition bind {A B} (m : M A) (k : A -> M B) : M B :=
  fun w =>
    match m w with
    | (Returns a, w') => k a w'
    | (Raises e, w') => (Raises e, w')
    end.

Definition raise {A} (e : exn) : M A := fun w => (Raises e, w).

(** [[x0, x1, ...]]: a new list object. *)
Definition new_list (xs : list Z) : M ref :=
  fun w => (Returns (length (heap w)),
            mkWorld (heap w ++ [xs]) (np_random w)).

Definition load (l : ref) : M (list Z) :=
  fun w =>
    match heap w !! l with
    | Some xs => (Returns xs, w)
    | None => (Raises DanglingReference, w)
    end.

Definition store (l : ref) (xs : list Z) : M unit :=
  fun w => (Returns tt, mkWorld (<[l := xs]> (heap w)) (np_random w)).

(** [l[i]] for a non-negative index. *)
Definition getitem (l : ref) (i : nat) : M Z :=
  bind (load l) (fun xs =>
    match xs !! i with
    | Some x => ret x
    | None => raise IndexError
    end).

(** [l[i] = v] for a non-negative index: in place. *)
Definition setitem (l : ref) (i : nat) (v : Z) : M unit :=
  bind (load l) (fun xs =>
    if decide (i < length xs)%nat then store l (<[i := v]> xs)
    else raise IndexError).

(** [l.copy()]: a new object with the same elements. *)
Definition copy (l : ref) : M ref :=
  bind (load l) new_list.

(** Running code that only uses the random source. *)
Definition with_random {A} (f : NpRandom.RandomState -> A * NpRandom.RandomState)
  : M A :=
  fun w => let '(a, rs) := f (np_random w) in (Returns a, mkWorld (heap w) rs).

End Py.

Import Py.

Declare Scope py_scope.
Delimit Scope py_scope with py.
Notation "x <- c1 ;; c2" := (Py.bind c1 (fun x => c2))
  (at level 100, c1 at next level, right associativity) : py_scope.
Notation "c1 ;; c2" := (Py.bind c1 (fun _ => c2))
  (at level 100, right associativity) : py_scope.
Open Scope py_scope.

(** ** class NPCPolicy *)

(** What a decision function can read of the environment object it is
    handed: the constants, the current contents of [env.positions], and the
    role and name of each agent.  (The decision functions stored in
    [env.agent_policies] are not part of the view: a decision function that
    calls another one through [env] is outside this model.) *)
Module EnvView.

Record t : Type := mk {
  num_positions : Z;
  goal : Z;
  num_actions : Z;
  positions : list Z;
  agents : list (string * string)
}.

End EnvView.

Module NPCPolicy.

(** [policy_func(env, state)] returns an integer action.  It may consult
    the random source, and has no other effect. *)
Definition policy : Type :=
  EnvView.t -> Z -> NpRandom.RandomState -> Z * NpRandom.RandomState.

Record t : Type := mk {
  role : string;
  policy_func : policy;
  goal : option Z;
  name : string
}.

(** The default [policy_func]: [lambda env, state: 0]. *)
Definition always_left : policy := fun env state rs => (0, rs).

(** [NPCPolicy(role=..., policy_func=..., goal=..., name=...)]; an absent
    keyword argument is [None].  ([name or role] also replaces an empty
    name by the role.) *)
Definition init (role : option string) (policy_func : option policy)
    (goal : option Z) (name : option string) : t :=
  let role := default "Ally"%string role in
  {| role := role;
     policy_func := default always_left policy_func;
     goal := goal;
     name := match name with
             | Some n => if decide (n = EmptyString) then role else n
             | None => role
             end |}.

Definition act (self : t) (env : EnvView.t) (state : Z) : M Z :=
  with_random (policy_func self env state).

(** [f"NPCPolicy(role={self.role}, name={self.name})"]. *)
Definition __repr__ (self : t) : string :=
  ("NPCPolicy(role=" ++ role self ++ ", name=" ++ name self ++ ")")%string.

End NPCPolicy.

(** ** The example policies *)

Definition ally_policy : NPCPolicy.policy := fun env state rs => (1, rs).

Definition competitive_policy : NPCPolicy.policy := fun env state rs => (0, rs).

Definition dialogue_policy : NPCPolicy.policy :=
  fun env state rs => NpRandom.randint 2 rs.

(** ** class TwoAgentEnv *)

Module TwoAgentEnv.

(** The attributes of the object.  [positions] is [None] as long as the
    attribute has not been assigned, and a reference to a list object
    afterwards. *)
Record t : Type := mk {
  num_positions : Z;
  goal : Z;
  num_actions : Z;
  agent_policies : list NPCPolicy.t;
  positions : option ref
}.

(** One entry of [info]: the dict with keys "role", "name" and "pos". *)
Record info_entry : Type := mk_info {
  info_role : string;
  info_name : string;
  info_pos : Z
}.

(** What [step] returns: [(positions.copy(), rewards, done, info)]. *)
Definition step_result : Type :=
  ref * list PyFloat.float * bool * list info_entry.

(** Evaluating the attribute [self.positions]. *)
Definition self_positions (self : t) : M ref :=
  match positions self with
  | Some l => ret l
  | None => raise (AttributeError "positions")
  end.

(** [self.positions[i]] and [self.positions[i] = v]. *)
Definition positions_get (self : t) (i : nat) : M Z :=
  l <- self_positions self ;; getitem l i.

Definition positions_set (self : t) (i : nat) (v : Z) : M unit :=
  l <- self_positions self ;; setitem l i v.

(** The environment as a decision function sees it when it is called. *)
Definition view (self : t) : M EnvView.t :=
  l <- self_positions self ;;
  ps <- load l ;;
  ret {| EnvView.num_positions := num_positions self;
         EnvView.goal := goal self;
         EnvView.num_actions := num_actions self;
         EnvView.positions := ps;
         EnvView.agents :=
           map (fun a => (NPCPolicy.role a, NPCPolicy.name a))
               (agent_policies self) |}.

(** [reset]: binds [self.positions] to a new list [[0, 2]] and returns a
    copy of it, together with the updated object. *)
Definition reset (self : t) : M (ref * t) :=
  l <- new_list [0; 2] ;;
  let self := {| num_positions := num_positions self;
                 goal := goal self;
                 num_actions := num_actions self;
                 agent_policies := agent_policies self;
                 positions := Some l |} in
  l <- self_positions self ;;
  c <- copy l ;;
  ret (c, self).

(** [TwoAgentEnv(agent_policies)]. *)
Definition init (agent_policies : list NPCPolicy.t) : M t :=
  if decide (length agent_policies = 2%nat) then
    let self := {| num_positions := 5;
                   goal := 4;
                   num_actions := 2;
                   agent_policies := agent_policies;
                   positions := None |} in
    r <- reset self ;;
    ret (snd r)
  else raise (AssertionError "This environment expects exactly 2 agents.").

(** [[agent.act(self, pos) for agent, pos in zip(agents, l)]], from index
    [i] on: [zip] asks its first iterator, then reads [l[i]] from the
    list object as it is at that moment, and stops when either is
    exhausted. *)
Fixpoint act_all (self : t) (l : ref) (agents : list NPCPolicy.t) (i : nat)
  : M (list Z) :=
  match agents with
  | [] => ret []
  | agent :: agents =>
      ps <- load l ;;
      match ps !! i with
      | None => ret []
      | Some pos =>
          env <- view self ;;
          action <- NPCPolicy.act agent env pos ;;
          actions <- act_all self l agents (S i) ;;
          ret (action :: actions)
      end
  end.

(** Line 45: each agent chooses their action. *)
Definition choose_actions (self : t) : M (list Z) :=
  l <- self_positions self ;;
  act_all self l (agent_policies self) 0.

(** Lines 50-54: [for i, action in enumerate(actions)], from index [i]. *)
Fixpoint update_positions (self : t) (actions : list Z) (i : nat) : M unit :=
  match actions with
  | [] => ret tt
  | action :: actions =>
      (if action =? 0 then
         p <- positions_get self i ;;
         positions_set self i (Z.max 0 (p - 1))
       else
         p <- positions_get self i ;;
         positions_set self i (Z.min (num_positions self - 1) (p + 1))) ;;
      update_positions self actions (S i)
  end.

(** Lines 57-58: the rewards after the collision check. *)
Definition collision_penalty (self : t) (rewards : list PyFloat.float)
  : M (list PyFloat.float) :=
  p0 <- positions_get self 0 ;;
  p1 <- positions_get self 1 ;;
  if p0 =? p1 then
    p0 <- positions_get self 0 ;;
    if negb (p0 =? goal self) then ret [PyFloat.minus_one; PyFloat.minus_one]
    else ret rewards
  else ret rewards.

(** Lines 61-64: [for i in range(2)], over the remaining indices;
    [rewards[i] += 1.0] reads and writes the local list [rewards]. *)
Fixpoint goal_reward (self : t) (indices : list nat)
    (rewards : list PyFloat.float) (done : bool)
  : M (list PyFloat.float * bool) :=
  match indices with
  | [] => ret (rewards, done)
  | i :: indices =>
      p <- positions_get self i ;;
      if p =? goal self then
        match rewards !! i with
        | Some r =>
            goal_reward self indices (<[i := PyFloat.add r PyFloat.one]> rewards) true
        | None => raise IndexError
        end
      else goal_reward self indices rewards done
  end.

(** Line 67: the per-agent info. *)
Definition make_info (self : t) : M (list info_entry) :=
  l <- self_positions self ;;
  ps <- load l ;;
  ret (map (fun ap => {| info_role := NPCPolicy.role (fst ap);
                         info_name := NPCPolicy.name (fst ap);
                         info_pos := snd ap |})
           (zip (agent_policies self) ps)).

Definition step (self : t) : M step_result :=
  actions <- choose_actions self ;;
  let rewards := [PyFloat.zero; PyFloat.zero] in
  let done := false in
  update_positions self actions 0 ;;
  rewards <- collision_penalty self rewards ;;
  rd <- goal_reward self (seq 0 2) rewards done ;;
  info <- make_info self ;;
  l <- self_positions self ;;
  c <- copy l ;;
  ret (c, fst rd, snd rd, info).

End TwoAgentEnv.

(** ** The agents of the example driver *)

Definition agent_main : NPCPolicy.t :=
  NPCPolicy.init (Some "Main"%string) (Some ally_policy) None (Some "main_agent"%string).

Definition agent_ally : NPCPolicy.t :=
  NPCPolicy.init (Some "Ally"%string) (Some ally_policy) None (Some "ally_npc"%string).

Definition agent_competitive : NPCPolicy.t :=
  NPCPolicy.init (Some "Competitive"%string) (Some competitive_policy) None
    (Some "competitor_npc"%string).

Definition agent_dialogue : NPCPolicy.t :=
  NPCPolicy.init (Some "Dialogue"%string) (Some dialogue_policy) None
    (Some "dialogue_npc"%string).

(** ** Clients: consecutive calls, and reading the state *)

(** [n] calls of [env.step()] in a row, oldest result first. *)
Fixpoint steps (self : TwoAgentEnv.t) (n : nat) : M (list TwoAgentEnv.step_result) :=
  match n with
  | O => ret []
  | S n =>
      r <- TwoAgentEnv.step self ;;
      rs <- steps self n ;;
      ret (r :: rs)
  end.

(** The contents of [env.positions] in a world, if the attribute is bound
    to a live list. *)
Definition read_positions (self : TwoAgentEnv.t) (w : World) : option (list Z) :=
  l ← TwoAgentEnv.positions self; heap w !! l.

(** The attributes that the constructor fixes once and for all. *)
Definition constructed (self : TwoAgentEnv.t) : Prop :=
  TwoAgentEnv.num_positions self = 5 /\
  TwoAgentEnv.goal self = 4 /\
  TwoAgentEnv.num_actions self = 2 /\
  length (TwoAgentEnv.agent_policies self) = 2%nat.

(** The states that a program reaches through the interface: it builds the
    environment, calls [reset] and [step], and in between may do anything
    to the world that leaves the list of the environment as it is (writes
    to the lists it was handed, new objects, draws from the random
    source). *)
Inductive reachable : TwoAgentEnv.t -> World -> Prop :=
| reachable_init agent_policies w self w' :
    TwoAgentEnv.init agent_policies w = (Returns self, w') ->
    reachable self w'
| reachable_reset self w c self' w' :
    reachable self w ->
    TwoAgentEnv.reset self w = (Returns (c, self'), w') ->
    reachable self' w'
| reachable_step self w r w' :
    reachable self w ->
    TwoAgentEnv.step self w = (Returns r, w') ->
    reachable self w'
| reachable_elsewhere self w w' :
    reachable self w ->
    read_positions self w' = read_positions self w ->
    reachable self w'.

(** A world with an empty store, for running examples. *)
Definition empty_world (draws : nat -> Z) : World :=
  mkWorld [] (NpRandom.mkRandomState draws 0).

(** ** Closed forms of the phases of [step], used to state what it computes *)

(** The position after the movement of lines 51-54, for [n] positions. *)
Definition move (n action p : Z) : Z :=
  if action =? 0 then Z.max 0 (p - 1) else Z.min (n - 1) (p + 1).

(** The test of line 57 on the positions after movement, for goal [g]. *)
Definition collision (g q0 q1 : Z) : bool :=
  (q0 =? q1) && negb (q0 =? g).

(** The rewards left by line 58. *)
Definition penalty (g q0 q1 : Z) (rewards : list PyFloat.float)
  : list PyFloat.float :=
  if collision g q0 q1 then [PyFloat.minus_one; PyFloat.minus_one] else rewards.

(** The effect of one round of lines 62-64 on one reward. *)
Definition bonus (g q : Z) (r : PyFloat.float) : PyFloat.float :=
  if q =? g then PyFloat.add r PyFloat.one else r.

Definition info_of (self : TwoAgentEnv.t) (ps : list Z)
  : list TwoAgentEnv.info_entry :=
  map (fun ap => TwoAgentEnv.mk_info (NPCPolicy.role (fst ap))
                   (NPCPolicy.name (fst ap)) (snd ap))
      (zip (TwoAgentEnv.agent_policies self) ps).

Definition view_of (self : TwoAgentEnv.t) (ps : list Z) : EnvView.t :=
  EnvView.mk (TwoAgentEnv.num_positions self) (TwoAgentEnv.goal self)
    (TwoAgentEnv.num_actions self) ps
    (map (fun a => (NPCPolicy.role a, NPCPolicy.name a))
         (TwoAgentEnv.agent_policies self)).

(** A decision function that answers [1] whenever [f] answers anything but
    [0], and consumes the random source as [f] does. *)
Definition binary (f : NPCPolicy.policy) : NPCPolicy.policy :=
  fun env state rs =>
    let r := f env state rs in
    (if fst r =? 0 then 0 else 1, snd r).

Definition binary_agent (a : NPCPolicy.t) : NPCPolicy.t :=
  NPCPolicy.mk (NPCPolicy.role a) (binary (NPCPolicy.policy_func a))
    (NPCPolicy.goal a) (NPCPolicy.name a).

Definition with_agents (self : TwoAgentEnv.t) (agents : list NPCPolicy.t)
  : TwoAgentEnv.t :=
  TwoAgentEnv.mk (TwoAgentEnv.num_positions self) (TwoAgentEnv.goal self)
    (TwoAgentEnv.num_actions self) agents (TwoAgentEnv.positions self).

(** The environment of the first matchup of the driver, as the constructor
    leaves it in an empty store, and environments caught later in an
    episode. *)
Definition main_vs_competitor : TwoAgentEnv.t :=
  TwoAgentEnv.mk 5 4 2 [agent_main; agent_competitive] (Some 0%nat).

Definition world_at (ps : list Z) : World :=
  mkWorld [ps] (NpRandom.mkRandomState (fun _ => 0) 0).

(** Decision functions for examples: one that answers a given integer,
    in {0, 1} or not, and one that looks at the other agent: it answers 1
    if it sees agent 0 on position 0, and 0 otherwise. *)
Definition fixed_policy (a : Z) : NPCPolicy.policy := fun env state rs => (a, rs).

Definition watcher_policy : NPCPolicy.policy :=
  fun env state rs =>
    (if decide (EnvView.positions env !! 0%nat = Some 0) then 1 else 0, rs).

Definition agent_fixed (a : Z) : NPCPolicy.t :=
  NPCPolicy.init (Some "Fixed"%string) (Some (fixed_policy a)) None None.

Definition agent_watcher : NPCPolicy.t :=
  NPCPolicy.init (Some "Watcher"%string) (Some watcher_policy) None None.

Definition env_of (A0 A1 : NPCPolicy.t) : TwoAgentEnv.t :=
  TwoAgentEnv.mk 5 4 2 [A0; A1] (Some 0%nat).

(** The decision function of an agent answers [a] whatever it is asked. *)
Definition always (agent : NPCPolicy.t) (a : Z) : Prop :=
  forall env state rs, fst (NPCPolicy.policy_func agent env state rs) = a.

(** ** The example driver: the code under [__main__] *)

(** The components of the tuple that [step] returns. *)
Definition result_state (r : TwoAgentEnv.step_result) : ref := fst (fst (fst r)).
Definition result_rewards (r : TwoAgentEnv.step_result) : list PyFloat.float :=
  snd (fst (fst r)).
Definition result_done (r : TwoAgentEnv.step_result) : bool := snd (fst r).
Definition result_info (r : TwoAgentEnv.step_result) : list TwoAgentEnv.info_entry :=
  snd r.

Module Driver.

(** What [print] writes: a title, or the line
    [f"Step {step+1}: State: {state}, Rewards: {rewards}, Info: {info}"],
    kept as the values that are formatted. *)
Inductive printed : Type :=
| Title (text : string)
| StepLine (number : nat) (state : list Z) (rewards : list PyFloat.float)
    (info : list TwoAgentEnv.info_entry).

(** Code that prints: the lines written so far are kept when it raises. *)
Definition IO (A : Type) : Type := World -> list printed * (outcome A * World).

Definition ret {A} (a : A) : IO A := fun w => ([], (Returns a, w)).

Definition bind {A B} (m : IO A) (k : A -> IO B) : IO B :=
  fun w =>
    match m w with
    | (out, (Returns a, w')) =>
        let r := k a w' in (out ++ fst r, snd r)
    | (out, (Raises e, w')) => (out, (Raises e, w'))
    end.

Definition lift {A} (m : M A) : IO A := fun w => ([], m w).

Definition print (line : printed) : IO unit :=
  fun w => ([line], (Returns tt, w)).

(** Lines 103-107: [for step in range(...)], over the remaining values of
    [step]; the loop is left at the first [done]. *)
Fixpoint episode (env : TwoAgentEnv.t) (range : list nat) : IO unit :=
  match range with
  | [] => ret tt
  | step :: range =>
      bind (lift (TwoAgentEnv.step env)) (fun r =>
      bind (lift (load (result_state r))) (fun state =>
      bind (print (StepLine (step + 1) state (result_rewards r) (result_info r)))
        (fun _ =>
      if result_done r then ret tt else episode env range)))
  end.

(** Lines 100-107: one matchup of the driver. *)
Definition matchup (title : string) (agents : list NPCPolicy.t) : IO unit :=
  bind (print (Title title)) (fun _ =>
  bind (lift (TwoAgentEnv.init agents)) (fun env =>
  bind (lift (TwoAgentEnv.reset env)) (fun r =>
  let env := snd r in
  episode env (seq 0 10)))).

Definition newline : string := String (Ascii.ascii_of_nat 10) EmptyString.

(** Lines 92-125. *)
Definition main : IO unit :=
  bind (matchup "Main agent vs. Competitive NPC" [agent_main; agent_competitive])
    (fun _ =>
  bind (matchup (newline ++ "Main agent + Ally NPC") [agent_main; agent_ally])
    (fun _ =>
  matchup (newline ++ "Main agent + Dialogue NPC") [agent_main; agent_dialogue])).

End Driver.

(** The decision function of an agent never answers [a]. *)
Definition never (agent : NPCPolicy.t) (a : Z) : Prop :=
  forall env state rs, fst (NPCPolicy.policy_func agent env state rs) <> a.

(** The line that the driver prints for a result of [step]: the state it
    shows is the list of the positions that [info] carries. *)
Definition line_of (number : nat) (r : TwoAgentEnv.step_result) : Driver.printed :=
  Driver.StepLine number (map TwoAgentEnv.info_pos (result_info r))
    (result_rewards r) (result_info r).

(** The line that the driver prints when the given agents are on the given
    positions with the given rewards. *)
Definition step_line (number : nat) (agents : list NPCPolicy.t)
    (positions : list Z) (rewards : list PyFloat.float) : Driver.printed :=
  Driver.StepLine number positions rewards
    (zip_with (fun a p => TwoAgentEnv.mk_info (NPCPolicy.role a) (NPCPolicy.name a) p)
       agents positions).

(** The character [,]. *)
Definition comma : Ascii.ascii :=
  Ascii.Ascii false false true true false true false false.

(** The character [c] occurs in [s]. *)
Fixpoint occurs (c : Ascii.ascii) (s : string) : bool :=
  match s with
  | EmptyString => false
  | String c' s => if Ascii.eqb c c' then true else occurs c s
  end.

(** * Verification *)

(** ** The monad and the store *)

Section Runtime.

Context {A B : Type}.

Lemma bind_returns (m : M A) (k : A -> M B) (w w' : World) (a : A) :
  m w = (Returns a, w') -> Py.bind m k w = k a w'.
Proof. unfold Py.bind. intros ->. reflexivity. Qed.

End Runtime.

Lemma bind_assoc {A B C : Type} (m : M A) (f : A -> M B) (g : B -> M C) (w : World) :
  Py.bind (Py.bind m f) g w = Py.bind m (fun a => Py.bind (f a) g) w.
Proof. unfold Py.bind. destruct (m w) as [[a | e] w']; reflexivity. Qed.

Lemma bind_ret {A B : Type} (a : A) (k : A -> M B) (w : World) :
  Py.bind (ret a) k w = k a w.
Proof. reflexivity. Qed.

Lemma load_returns (l : ref) (xs : list Z) (w : World) :
  heap w !! l = Some xs -> load l w = (Returns xs, w).
Proof. unfold load. intros ->. reflexivity. Qed.

Lemma getitem_returns (l : ref) (xs : list Z) (i : nat) (x : Z) (w : World) :
  heap w !! l = Some xs -> xs !! i = Some x ->
  getitem l i w = (Returns x, w).
Proof.
  intros Hl Hi. unfold getitem.
  rewrite (bind_returns _ _ _ _ _ (load_returns _ _ _ Hl)), Hi. reflexivity.
Qed.

Lemma setitem_returns (l : ref) (xs : list Z) (i : nat) (v : Z) (w : World) :
  heap w !! l = Some xs -> (i < length xs)%nat ->
  setitem l i v w =
    (Returns tt, mkWorld (<[l := <[i := v]> xs]> (heap w)) (np_random w)).
Proof.
  intros Hl Hi. unfold setitem.
  rewrite (bind_returns _ _ _ _ _ (load_returns _ _ _ Hl)).
  destruct (decide (i < length xs)%nat); [reflexivity | contradiction].
Qed.

Lemma copy_returns (l : ref) (xs : list Z) (w : World) :
  heap w !! l = Some xs ->
  copy l w = (Returns (length (heap w)), mkWorld (heap w ++ [xs]) (np_random w)).
Proof.
  intros Hl. unfold copy.
  rewrite (bind_returns _ _ _ _ _ (load_returns _ _ _ Hl)). reflexivity.
Qed.

(** A new object does not disturb the existing ones, and is found at the
    reference that the allocation returns. *)
Lemma heap_lookup_alloc (h : list (list Z)) (l : ref) (xs ys : list Z) :
  h !! l = Some xs -> (h ++ [ys]) !! l = Some xs.
Proof. intros Hl. rewrite lookup_app_l; [exact Hl | eapply lookup_lt_Some, Hl]. Qed.

Lemma heap_lookup_new (h : list (list Z)) (ys : list Z) :
  (h ++ [ys]) !! length h = Some ys.
Proof. rewrite lookup_app_r by lia. rewrite Nat.sub_diag. reflexivity. Qed.

(** ** The phases of [step] on an environment with two positions *)

Section Phases.

Variable self : TwoAgentEnv.t.
Variable l : ref.
Hypothesis self_bound : TwoAgentEnv.positions self = Some l.

Lemma self_positions_returns (w : World) :
  TwoAgentEnv.self_positions self w = (Returns l, w).
Proof. unfold TwoAgentEnv.self_positions. rewrite self_bound. reflexivity. Qed.

Lemma positions_get_returns (w : World) (xs : list Z) (i : nat) (x : Z) :
  heap w !! l = Some xs -> xs !! i = Some x ->
  TwoAgentEnv.positions_get self i w = (Returns x, w).
Proof.
  intros Hl Hi. unfold TwoAgentEnv.positions_get.
  rewrite (bind_returns _ _ _ _ _ (self_positions_returns w)).
  eapply getitem_returns; eassumption.
Qed.

Lemma positions_set_returns (w : World) (xs : list Z) (i : nat) (v : Z) :
  heap w !! l = Some xs -> (i < length xs)%nat ->
  TwoAgentEnv.positions_set self i v w =
    (Returns tt, mkWorld (<[l := <[i := v]> xs]> (heap w)) (np_random w)).
Proof.
  intros Hl Hi. unfold TwoAgentEnv.positions_set.
  rewrite (bind_returns _ _ _ _ _ (self_positions_returns w)).
  apply setitem_returns; assumption.
Qed.

Lemma view_returns (w : World) (ps : list Z) :
  heap w !! l = Some ps ->
  TwoAgentEnv.view self w = (Returns (view_of self ps), w).
Proof.
  intros Hl. unfold TwoAgentEnv.view.
  rewrite (bind_returns _ _ _ _ _ (self_positions_returns w)).
  rewrite (bind_returns _ _ _ _ _ (load_returns _ _ _ Hl)).
  reflexivity.
Qed.

(** One call of [agent.act(self, pos)]: the decision function is applied
    to the view it is handed; only the random source moves. *)
Lemma act_returns (agent : NPCPolicy.t) (env : EnvView.t) (pos : Z) (w : World) :
  NPCPolicy.act agent env pos w =
    (Returns (fst (NPCPolicy.policy_func agent env pos (np_random w))),
     mkWorld (heap w) (snd (NPCPolicy.policy_func agent env pos (np_random w)))).
Proof.
  unfold NPCPolicy.act, with_random.
  destruct (NPCPolicy.policy_func agent env pos (np_random w)). reflexivity.
Qed.

Variables A0 A1 : NPCPolicy.t.
Hypothesis two_agents : TwoAgentEnv.agent_policies self = [A0; A1].

Section FromPositions.

Variables p0 p1 : Z.
Variable w : World.
Hypothesis two_positions : heap w !! l = Some [p0; p1].

(** The two decisions of the step, as line 45 computes them. *)
Let env : EnvView.t := view_of self [p0; p1].
Let d0 := NPCPolicy.policy_func A0 env p0 (np_random w).
Let d1 := NPCPolicy.policy_func A1 env p1 (snd d0).

Lemma choose_actions_returns :
  TwoAgentEnv.choose_actions self w =
    (Returns [fst d0; fst d1], mkWorld (heap w) (snd d1)).
Proof.
  unfold TwoAgentEnv.choose_actions.
  rewrite (bind_returns _ _ _ _ _ (self_positions_returns w)).
  rewrite two_agents. cbn [TwoAgentEnv.act_all].
  rewrite (bind_returns _ _ _ _ _ (load_returns _ _ _ two_positions)).
  cbn [lookup list_lookup].
  rewrite (bind_returns _ _ _ _ _ (view_returns _ _ two_positions)).
  rewrite (bind_returns _ _ _ _ _ (act_returns A0 _ p0 w)).
  set (w1 := mkWorld _ _).
  assert (H1 : heap w1 !! l = Some [p0; p1]) by exact two_positions.
  rewrite bind_assoc.
  rewrite (bind_returns _ _ _ _ _ (load_returns _ _ _ H1)).
  cbn [lookup list_lookup].
  rewrite bind_assoc.
  rewrite (bind_returns _ _ _ _ _ (view_returns _ _ H1)).
  rewrite bind_assoc.
  rewrite (bind_returns _ _ _ _ _ (act_returns A1 _ p1 w1)).
  reflexivity.
Qed.

(** Lines 50-54. *)
Lemma update_positions_returns (a0 a1 : Z) :
  TwoAgentEnv.update_positions self [a0; a1] 0 w =
    (Returns tt,
     mkWorld (<[l := [move (TwoAgentEnv.num_positions self) a0 p0;
                      move (TwoAgentEnv.num_positions self) a1 p1]]> (heap w))
             (np_random w)).
Proof.
  assert (Hlt : (l < length (heap w))%nat)
    by (eapply lookup_lt_Some, two_positions).
  cbn [TwoAgentEnv.update_positions]. unfold move.
  rewrite bind_returns with (a := tt)
    (w' := mkWorld (<[l := [move (TwoAgentEnv.num_positions self) a0 p0; p1]]> (heap w))
                   (np_random w)).
  2:{ unfold move. destruct (a0 =? 0);
      rewrite (bind_returns _ _ _ _ _
                 (positions_get_returns w [p0; p1] 0 p0 two_positions eq_refl));
      apply (positions_set_returns w [p0; p1] 0 _ two_positions); cbn; lia. }
  set (w1 := mkWorld _ _).
  assert (H1 : heap w1 !! l = Some [move (TwoAgentEnv.num_positions self) a0 p0; p1])
    by (apply list_lookup_insert_eq, Hlt).
  rewrite bind_returns with (a := tt)
    (w' := mkWorld (<[l := [move (TwoAgentEnv.num_positions self) a0 p0;
                            move (TwoAgentEnv.num_positions self) a1 p1]]> (heap w1))
                   (np_random w1)).
  2:{ unfold move. destruct (a1 =? 0);
      rewrite (bind_returns _ _ _ _ _
                 (positions_get_returns w1 _ 1 p1 H1 eq_refl));
      apply (positions_set_returns w1 _ 1 _ H1); cbn; lia. }
  subst w1. cbn [heap np_random]. rewrite list_insert_insert_eq. reflexivity.
Qed.

(** Lines 57-58. *)
Lemma collision_penalty_returns (rewards : list PyFloat.float) :
  TwoAgentEnv.collision_penalty self rewards w =
    (Returns (penalty (TwoAgentEnv.goal self) p0 p1 rewards), w).
Proof.
  unfold TwoAgentEnv.collision_penalty, penalty, collision.
  rewrite (bind_returns _ _ _ _ _
             (positions_get_returns w _ 0 p0 two_positions eq_refl)).
  rewrite (bind_returns _ _ _ _ _
             (positions_get_returns w _ 1 p1 two_positions eq_refl)).
  destruct (p0 =? p1); [ | reflexivity ].
  rewrite (bind_returns _ _ _ _ _
             (positions_get_returns w _ 0 p0 two_positions eq_refl)).
  destruct (p0 =? TwoAgentEnv.goal self); reflexivity.
Qed.

(** Lines 61-64. *)
Lemma goal_reward_returns (r0 r1 : PyFloat.float) (done : bool) :
  TwoAgentEnv.goal_reward self (seq 0 2) [r0; r1] done w =
    (Returns ([bonus (TwoAgentEnv.goal self) p0 r0;
               bonus (TwoAgentEnv.goal self) p1 r1],
              done || (p0 =? TwoAgentEnv.goal self)
                   || (p1 =? TwoAgentEnv.goal self)), w).
Proof.
  cbn [seq TwoAgentEnv.goal_reward]. unfold bonus.
  rewrite (bind_returns _ _ _ _ _
             (positions_get_returns w _ 0 p0 two_positions eq_refl)).
  destruct (p0 =? TwoAgentEnv.goal self); cbn [lookup list_lookup];
    rewrite (bind_returns _ _ _ _ _
               (positions_get_returns w _ 1 p1 two_positions eq_refl));
    destruct (p1 =? TwoAgentEnv.goal self), done; reflexivity.
Qed.

(** Line 67. *)
Lemma make_info_returns :
  TwoAgentEnv.make_info self w = (Returns (info_of self [p0; p1]), w).
Proof.
  unfold TwoAgentEnv.make_info.
  rewrite (bind_returns _ _ _ _ _ (self_positions_returns w)).
  rewrite (bind_returns _ _ _ _ _ (load_returns _ _ _ two_positions)).
  reflexivity.
Qed.

End FromPositions.

(** The whole of [step], from positions [[p0, p1]]: the two decisions are
    taken on the view of the world at the start, then both positions
    move, then the rewards are settled on the positions after movement,
    and one new list object holds the copy that is returned. *)
Lemma step_returns (p0 p1 : Z) (w : World) :
  heap w !! l = Some [p0; p1] ->
  let env := view_of self [p0; p1] in
  let d0 := NPCPolicy.policy_func A0 env p0 (np_random w) in
  let d1 := NPCPolicy.policy_func A1 env p1 (snd d0) in
  let n := TwoAgentEnv.num_positions self in
  let g := TwoAgentEnv.goal self in
  let q0 := move n (fst d0) p0 in
  let q1 := move n (fst d1) p1 in
  let base := penalty g q0 q1 [PyFloat.zero; PyFloat.zero] in
  TwoAgentEnv.step self w =
    (Returns (length (heap w),
              zip_with (bonus g) [q0; q1] base,
              (q0 =? g) || (q1 =? g),
              info_of self [q0; q1]),
     mkWorld (<[l := [q0; q1]]> (heap w) ++ [[q0; q1]]) (snd d1)).
Proof.
  intros Hl env d0 d1 n g q0 q1 base.
  assert (Hlt : (l < length (heap w))%nat) by (eapply lookup_lt_Some, Hl).
  unfold TwoAgentEnv.step.
  rewrite (bind_returns _ _ _ _ _ (choose_actions_returns p0 p1 w Hl)).
  fold env d0 d1.
  set (w1 := mkWorld (heap w) (snd d1)).
  rewrite (bind_returns _ _ _ _ _
             (update_positions_returns p0 p1 w1 Hl (fst d0) (fst d1))).
  fold n q0 q1. cbn [heap np_random].
  set (w2 := mkWorld _ _).
  assert (H2 : heap w2 !! l = Some [q0; q1])
    by (apply list_lookup_insert_eq, Hlt).
  rewrite (bind_returns _ _ _ _ _ (collision_penalty_returns q0 q1 w2 H2 _)).
  fold g base.
  assert (Hbase : exists b0 b1, base = [b0; b1]).
  { unfold base, penalty. destruct (collision g q0 q1); eauto. }
  destruct Hbase as (b0 & b1 & Hbase). rewrite Hbase.
  rewrite (bind_returns _ _ _ _ _ (goal_reward_returns q0 q1 w2 H2 b0 b1 false)).
  rewrite (bind_returns _ _ _ _ _ (make_info_returns q0 q1 w2 H2)).
  rewrite (bind_returns _ _ _ _ _ (self_positions_returns w2)).
  rewrite (bind_returns _ _ _ _ _ (copy_returns _ _ _ H2)).
  unfold ret, w2. cbn [heap np_random fst snd zip_with orb].
  rewrite length_insert. reflexivity.
Qed.

End Phases.

(** ** [step] on a constructed environment *)

Lemma constructed_agents (self : TwoAgentEnv.t) :
  constructed self ->
  exists A0 A1, TwoAgentEnv.agent_policies self = [A0; A1].
Proof.
  intros (_ & _ & _ & Hlen).
  destruct (TwoAgentEnv.agent_policies self) as [| A0 [| A1 [| ? ?]]];
    try discriminate.
  eauto.
Qed.

Lemma read_positions_inv (self : TwoAgentEnv.t) (w : World) (ps : list Z) :
  read_positions self w = Some ps ->
  exists l, TwoAgentEnv.positions self = Some l /\ heap w !! l = Some ps.
Proof.
  unfold read_positions. destruct (TwoAgentEnv.positions self) as [l |];
    [ | discriminate ].
  cbn. eauto.
Qed.

Lemma read_positions_bound (self : TwoAgentEnv.t) (w : World) (l : ref) :
  TwoAgentEnv.positions self = Some l ->
  read_positions self w = heap w !! l.
Proof. unfold read_positions. intros ->. reflexivity. Qed.

(** One call of [step], from positions [[p0, p1]], with the constants of
    the constructor. *)
Lemma step_constructed (self : TwoAgentEnv.t) (w : World) (p0 p1 : Z) :
  constructed self ->
  read_positions self w = Some [p0; p1] ->
  exists A0 A1,
    TwoAgentEnv.agent_policies self = [A0; A1] /\
    let env := view_of self [p0; p1] in
    let d0 := NPCPolicy.policy_func A0 env p0 (np_random w) in
    let d1 := NPCPolicy.policy_func A1 env p1 (snd d0) in
    let q0 := move 5 (fst d0) p0 in
    let q1 := move 5 (fst d1) p1 in
    exists w',
      TwoAgentEnv.choose_actions self w =
        (Returns [fst d0; fst d1], mkWorld (heap w) (snd d1)) /\
      TwoAgentEnv.step self w =
        (Returns (length (heap w),
                  zip_with (bonus 4) [q0; q1]
                    (penalty 4 q0 q1 [PyFloat.zero; PyFloat.zero]),
                  (q0 =? 4) || (q1 =? 4),
                  info_of self [q0; q1]), w') /\
      read_positions self w' = Some [q0; q1] /\
      heap w' !! length (heap w) = Some [q0; q1] /\
      np_random w' = snd d1.
Proof.
  intros Hc Hr.
  destruct (constructed_agents self Hc) as (A0 & A1 & Hagents).
  destruct (read_positions_inv self w _ Hr) as (l & Hl & Hh).
  destruct Hc as (Hn & Hg & _ & _).
  exists A0, A1. split; [exact Hagents | ].
  intros env d0 d1 q0 q1.
  pose proof (step_returns self l Hl A0 A1 Hagents p0 p1 w Hh) as Hstep.
  rewrite Hn, Hg in Hstep. cbv zeta in Hstep. fold env d0 d1 q0 q1 in Hstep.
  eexists. split; [ | split; [exact Hstep | ] ].
  - apply (choose_actions_returns self l Hl A0 A1 Hagents p0 p1 w Hh).
  - assert (Hlt : (l < length (heap w))%nat) by (eapply lookup_lt_Some, Hh).
    rewrite (read_positions_bound _ _ l Hl). cbn [heap np_random].
    split; [ | split; [ | reflexivity ] ].
    + rewrite lookup_app_l by (rewrite length_insert; exact Hlt).
      apply list_lookup_insert_eq, Hlt.
    + rewrite <- (length_insert (heap w) l [q0; q1]). apply heap_lookup_new.
Qed.

(** The rewards of a step, by position after movement. *)
Lemma settled_rewards (g q0 q1 : Z) :
  zip_with (bonus g) [q0; q1] (penalty g q0 q1 [PyFloat.zero; PyFloat.zero]) =
    let base := if collision g q0 q1 then PyFloat.minus_one else PyFloat.zero in
    [bonus g q0 base; bonus g q1 base].
Proof. unfold penalty. destruct (collision g q0 q1); reflexivity. Qed.

Lemma collision_true (g q0 q1 : Z) :
  collision g q0 q1 = true <-> q0 = q1 /\ q0 <> g.
Proof.
  unfold collision. rewrite andb_true_iff, negb_true_iff, Z.eqb_eq, Z.eqb_neq.
  reflexivity.
Qed.

Lemma bonus_at_goal (g : Z) (r : PyFloat.float) :
  bonus g g r = PyFloat.add r PyFloat.one.
Proof. unfold bonus. rewrite Z.eqb_refl. reflexivity. Qed.

Lemma bonus_elsewhere (g q : Z) (r : PyFloat.float) :
  q <> g -> bonus g q r = r.
Proof. unfold bonus. intros Hne%Z.eqb_neq. rewrite Hne. reflexivity. Qed.

Ltac step_facts self w p0 p1 Hc Hr :=
  let H := fresh "Hstep" in
  pose proof (step_constructed self w p0 p1 Hc Hr) as H;
  cbv zeta in H;
  destruct H as (?A0 & ?A1 & ?Hagents & ?w' & ?Hchoose & H & ?Hread & ?Hcopy & ?Hrng);
  rewrite settled_rewards in H; cbv zeta in H.

Lemma constructed_main_vs_competitor : constructed main_vs_competitor.
Proof. repeat split. Qed.

(** ** Rewards and termination *)

(** C1. In every call of [step], if the two positions after movement are
    equal and that position is not the goal 4, then both rewards of the
    step are exactly -1.0, whatever happened before. *)
Theorem collision_sets_both_rewards (self : TwoAgentEnv.t) (w : World) (p0 p1 : Z) :
  constructed self ->
  read_positions self w = Some [p0; p1] ->
  exists c rewards done info w',
    TwoAgentEnv.step self w = (Returns (c, rewards, done, info), w') /\
    forall q, read_positions self w' = Some [q; q] -> q <> 4 ->
      rewards = [PyFloat.minus_one; PyFloat.minus_one].
Proof.
  intros Hc Hr. step_facts self w p0 p1 Hc Hr.
  do 5 eexists. split; [exact Hstep | ].
  intros q Hq Hne. rewrite Hread in Hq. injection Hq as Hq0 Hq1.
  rewrite Hq0, Hq1.
  rewrite (proj2 (collision_true 4 q q)) by (split; [reflexivity | exact Hne]).
  rewrite (bonus_elsewhere 4 q) by exact Hne. reflexivity.
Qed.

Lemma collision_sets_both_rewards_witness :
  constructed main_vs_competitor /\
  read_positions main_vs_competitor (world_at [0; 2]) = Some [0; 2] /\
  exists c rewards done info w',
    TwoAgentEnv.step main_vs_competitor (world_at [0; 2]) =
      (Returns (c, rewards, done, info), w') /\
    forall q, read_positions main_vs_competitor w' = Some [q; q] -> q <> 4 ->
      rewards = [PyFloat.minus_one; PyFloat.minus_one].
Proof.
  split; [apply constructed_main_vs_competitor | ].
  split; [reflexivity | ].
  apply (collision_sets_both_rewards main_vs_competitor (world_at [0; 2]) 0 2).
  - apply constructed_main_vs_competitor.
  - reflexivity.
Defined.

Lemma collision_excludes_goal (g q0 q1 : Z) :
  (q0 =? g) || (q1 =? g) = true -> collision g q0 q1 = false.
Proof.
  unfold collision. intros H.
  destruct (Z.eqb_spec q0 q1) as [-> | ]; [ | reflexivity ].
  rewrite orb_diag in H. rewrite H. reflexivity.
Qed.

Lemma float_one_not_minus_one : PyFloat.one <> PyFloat.minus_one.
Proof. discriminate. Qed.

Lemma float_zero_not_minus_one : PyFloat.zero <> PyFloat.minus_one.
Proof. discriminate. Qed.

(** C2. In every call of [step], an agent whose position after movement is
    the goal 4 gets +1.0 added to its reward, which is then exactly 1.0,
    and the returned [done] is true; [done] is true exactly when at least
    one of the two agents is at the goal.  [[b0, b1]] are the rewards that
    the collision check of lines 57-58 leaves for the positions after
    movement. *)
Theorem goal_adds_one_and_ends (self : TwoAgentEnv.t) (w : World) (p0 p1 : Z) :
  constructed self ->
  read_positions self w = Some [p0; p1] ->
  exists c r0 r1 done info w' q0 q1 b0 b1,
    TwoAgentEnv.step self w = (Returns (c, [r0; r1], done, info), w') /\
    read_positions self w' = Some [q0; q1] /\
    TwoAgentEnv.collision_penalty self [PyFloat.zero; PyFloat.zero] w' =
      (Returns [b0; b1], w') /\
    (q0 = 4 -> r0 = PyFloat.add b0 PyFloat.one /\ r0 = PyFloat.one) /\
    (q1 = 4 -> r1 = PyFloat.add b1 PyFloat.one /\ r1 = PyFloat.one) /\
    (q0 <> 4 -> r0 = b0) /\
    (q1 <> 4 -> r1 = b1) /\
    (done = true <-> q0 = 4 \/ q1 = 4).
Proof.
  intros Hc Hr. step_facts self w p0 p1 Hc Hr.
  destruct (read_positions_inv self w' _ Hread) as (l & Hl & Hh).
  pose proof (collision_penalty_returns self l Hl _ _ w' Hh
                [PyFloat.zero; PyFloat.zero]) as Hpen.
  destruct Hc as (_ & Hg & _ & _). rewrite Hg in Hpen.
  set (q0 := move 5 _ p0) in *. set (q1 := move 5 _ p1) in *.
  assert (Hbase : penalty 4 q0 q1 [PyFloat.zero; PyFloat.zero] =
                  [if collision 4 q0 q1 then PyFloat.minus_one else PyFloat.zero;
                   if collision 4 q0 q1 then PyFloat.minus_one else PyFloat.zero])
    by (unfold penalty; destruct (collision 4 q0 q1); reflexivity).
  rewrite Hbase in Hpen.
  do 10 eexists.
  split; [exact Hstep | ]. split; [exact Hread | ]. split; [exact Hpen | ].
  clearbody q0 q1.
  split; [ | split; [ | split; [ | split ] ] ].
  - intros ->. rewrite bonus_at_goal. split; [reflexivity | ].
    rewrite collision_excludes_goal by reflexivity. reflexivity.
  - intros ->. rewrite bonus_at_goal. split; [reflexivity | ].
    rewrite collision_excludes_goal by apply orb_true_r. reflexivity.
  - intros Hne. apply bonus_elsewhere, Hne.
  - intros Hne. apply bonus_elsewhere, Hne.
  - rewrite orb_true_iff, !Z.eqb_eq. tauto.
Qed.

Lemma goal_adds_one_and_ends_witness :
  constructed main_vs_competitor /\
  read_positions main_vs_competitor (world_at [3; 0]) = Some [3; 0] /\
  exists c r0 r1 done info w' q0 q1 b0 b1,
    TwoAgentEnv.step main_vs_competitor (world_at [3; 0]) =
      (Returns (c, [r0; r1], done, info), w') /\
    read_positions main_vs_competitor w' = Some [q0; q1] /\
    TwoAgentEnv.collision_penalty main_vs_competitor [PyFloat.zero; PyFloat.zero] w' =
      (Returns [b0; b1], w') /\
    (q0 = 4 -> r0 = PyFloat.add b0 PyFloat.one /\ r0 = PyFloat.one) /\
    (q1 = 4 -> r1 = PyFloat.add b1 PyFloat.one /\ r1 = PyFloat.one) /\
    (q0 <> 4 -> r0 = b0) /\
    (q1 <> 4 -> r1 = b1) /\
    (done = true <-> q0 = 4 \/ q1 = 4).
Proof.
  split; [apply constructed_main_vs_competitor | ].
  split; [reflexivity | ].
  apply (goal_adds_one_and_ends main_vs_competitor (world_at [3; 0]) 3 0).
  - apply constructed_main_vs_competitor.
  - reflexivity.
Defined.

(** C9. In every result of [step] with [done] true, neither reward is
    -1.0 and each is 0.0 or 1.0: the two agents are not on a common
    position other than the goal, so the collision penalty and the end of
    the episode never come in the same step. *)
Theorem done_excludes_penalty (self : TwoAgentEnv.t) (w : World) (p0 p1 : Z) :
  constructed self ->
  read_positions self w = Some [p0; p1] ->
  exists c r0 r1 done info w',
    TwoAgentEnv.step self w = (Returns (c, [r0; r1], done, info), w') /\
    (done = true ->
       (r0 = PyFloat.zero \/ r0 = PyFloat.one) /\
       (r1 = PyFloat.zero \/ r1 = PyFloat.one) /\
       r0 <> PyFloat.minus_one /\
       r1 <> PyFloat.minus_one /\
       forall q, read_positions self w' = Some [q; q] -> q = 4).
Proof.
  intros Hc Hr. step_facts self w p0 p1 Hc Hr.
  set (q0 := move 5 _ p0) in *. set (q1 := move 5 _ p1) in *.
  do 6 eexists. split; [exact Hstep | ].
  intros Hdone. rewrite (collision_excludes_goal 4 q0 q1 Hdone).
  assert (Hb : forall q, bonus 4 q PyFloat.zero = PyFloat.zero \/
                         bonus 4 q PyFloat.zero = PyFloat.one).
  { intros q. unfold bonus. destruct (q =? 4); [right | left]; reflexivity. }
  split; [apply Hb | ]. split; [apply Hb | ].
  split; [ | split ].
  - destruct (Hb q0) as [-> | ->];
      [apply float_zero_not_minus_one | apply float_one_not_minus_one].
  - destruct (Hb q1) as [-> | ->];
      [apply float_zero_not_minus_one | apply float_one_not_minus_one].
  - intros q Hq. rewrite Hread in Hq. injection Hq as Hq0 Hq1.
    rewrite Hq0, Hq1, orb_diag in Hdone. apply Z.eqb_eq, Hdone.
Qed.

Lemma done_excludes_penalty_witness :
  constructed main_vs_competitor /\
  read_positions main_vs_competitor (world_at [3; 0]) = Some [3; 0] /\
  exists c r0 r1 done info w',
    TwoAgentEnv.step main_vs_competitor (world_at [3; 0]) =
      (Returns (c, [r0; r1], done, info), w') /\
    (done = true ->
       (r0 = PyFloat.zero \/ r0 = PyFloat.one) /\
       (r1 = PyFloat.zero \/ r1 = PyFloat.one) /\
       r0 <> PyFloat.minus_one /\
       r1 <> PyFloat.minus_one /\
       forall q, read_positions main_vs_competitor w' = Some [q; q] -> q = 4).
Proof.
  split; [apply constructed_main_vs_competitor | ].
  split; [reflexivity | ].
  apply (done_excludes_penalty main_vs_competitor (world_at [3; 0]) 3 0).
  - apply constructed_main_vs_competitor.
  - reflexivity.
Defined.

(** ** [reset] and the constructor *)

Lemma reset_returns (self : TwoAgentEnv.t) (w : World) :
  TwoAgentEnv.reset self w =
    (Returns (S (length (heap w)),
              with_agents
                (TwoAgentEnv.mk (TwoAgentEnv.num_positions self)
                   (TwoAgentEnv.goal self) (TwoAgentEnv.num_actions self)
                   [] (Some (length (heap w))))
                (TwoAgentEnv.agent_policies self)),
     mkWorld ((heap w ++ [[0; 2]]) ++ [[0; 2]]) (np_random w)).
Proof.
  unfold TwoAgentEnv.reset.
  rewrite bind_returns with (a := length (heap w))
    (w' := mkWorld (heap w ++ [[0; 2]]) (np_random w)) by reflexivity.
  cbv zeta. unfold TwoAgentEnv.self_positions. cbn [TwoAgentEnv.positions].
  rewrite bind_ret.
  erewrite bind_returns by (apply copy_returns, heap_lookup_new).
  cbn [heap np_random]. rewrite length_app, Nat.add_1_r. reflexivity.
Qed.

Lemma init_returns (agent_policies : list NPCPolicy.t) (w : World) :
  length agent_policies = 2%nat ->
  TwoAgentEnv.init agent_policies w =
    (Returns (TwoAgentEnv.mk 5 4 2 agent_policies (Some (length (heap w)))),
     mkWorld ((heap w ++ [[0; 2]]) ++ [[0; 2]]) (np_random w)).
Proof.
  intros Hlen. unfold TwoAgentEnv.init.
  destruct (decide (length agent_policies = 2%nat)); [ | contradiction ].
  rewrite (bind_returns _ _ _ _ _ (reset_returns _ w)). reflexivity.
Qed.

Lemma read_positions_fresh (self : TwoAgentEnv.t) (h : list (list Z))
    (xs ys : list Z) (rs : NpRandom.RandomState) :
  TwoAgentEnv.positions self = Some (length h) ->
  read_positions self (mkWorld ((h ++ [xs]) ++ [ys]) rs) = Some xs.
Proof.
  intros Hl. rewrite (read_positions_bound _ _ _ Hl). cbn [heap].
  apply heap_lookup_alloc, heap_lookup_new.
Qed.

(** C6. Whatever the state of the environment, [reset] binds its positions
    to [[0, 2]] and returns a copy: a different list object with the same
    contents, so that no write to the returned list, whether of one item
    or of the whole contents, changes the positions of the environment. *)
Theorem reset_restores_start_and_returns_copy (self : TwoAgentEnv.t) (w : World) :
  exists c self' w',
    TwoAgentEnv.reset self w = (Returns (c, self'), w') /\
    read_positions self' w' = Some [0; 2] /\
    heap w' !! c = Some [0; 2] /\
    TwoAgentEnv.positions self' <> Some c /\
    (forall xs, read_positions self' (snd (store c xs w')) = Some [0; 2]) /\
    (forall i v, read_positions self' (snd (setitem c i v w')) = Some [0; 2]) /\
    TwoAgentEnv.agent_policies self' = TwoAgentEnv.agent_policies self /\
    TwoAgentEnv.num_positions self' = TwoAgentEnv.num_positions self /\
    TwoAgentEnv.goal self' = TwoAgentEnv.goal self.
Proof.
  do 3 eexists. split; [apply reset_returns | ].
  set (h := heap w).
  assert (Hself : forall xs ys rs,
            read_positions
              (with_agents (TwoAgentEnv.mk (TwoAgentEnv.num_positions self)
                              (TwoAgentEnv.goal self) (TwoAgentEnv.num_actions self)
                              [] (Some (length h)))
                 (TwoAgentEnv.agent_policies self))
              (mkWorld ((h ++ [xs]) ++ [ys]) rs) = Some xs).
  { intros. apply read_positions_fresh. reflexivity. }
  assert (Hstore : forall xs,
            <[S (length h) := xs]> ((h ++ [[0; 2]]) ++ [[0; 2]]) =
            (h ++ [[0; 2]]) ++ [xs]).
  { intros xs. rewrite insert_app_r_alt by (rewrite length_app; cbn; lia).
    rewrite length_app, Nat.add_1_r, Nat.sub_diag. reflexivity. }
  assert (Hc : ((h ++ [[0; 2]]) ++ [[0; 2]]) !! S (length h) = Some [0; 2]).
  { replace (S (length h)) with (length (h ++ [[0; 2]]))
      by (rewrite length_app; cbn; lia).
    apply heap_lookup_new. }
  split; [apply Hself | ].
  split; [exact Hc | ].
  split; [cbn; intros [= Hne]; lia | ].
  split; [ | split; [ | repeat split ] ].
  - intros xs. unfold store. cbn [snd heap np_random]. rewrite Hstore. apply Hself.
  - intros i v. unfold setitem.
    rewrite (bind_returns _ _ _ _ _
               (load_returns (S (length h)) [0; 2] (mkWorld _ (np_random w)) Hc)).
    case_decide.
    + unfold store. cbn [snd heap np_random]. rewrite Hstore. apply Hself.
    + apply Hself.
Qed.

(** C7. The constructor fails on the agent count, with an assertion error
    and before touching the world, when it is given a list of agents
    whose length is not 2 (one agent, three agents, ...); with exactly two
    agents it succeeds. *)
Theorem constructor_requires_two_agents (agent_policies : list NPCPolicy.t) (w : World) :
  (length agent_policies <> 2%nat ->
     TwoAgentEnv.init agent_policies w =
       (Raises (AssertionError "This environment expects exactly 2 agents."), w)) /\
  (length agent_policies = 2%nat ->
     exists self w',
       TwoAgentEnv.init agent_policies w = (Returns self, w') /\
       TwoAgentEnv.agent_policies self = agent_policies).
Proof.
  split.
  - intros Hne. unfold TwoAgentEnv.init. case_decide; [contradiction | reflexivity].
  - intros Hlen. do 2 eexists. split; [apply init_returns, Hlen | reflexivity].
Qed.

Lemma constructor_requires_two_agents_witness :
  (TwoAgentEnv.init [agent_main] (empty_world (fun _ => 0)) =
     (Raises (AssertionError "This environment expects exactly 2 agents."),
      empty_world (fun _ => 0))) /\
  (TwoAgentEnv.init [agent_main; agent_ally; agent_competitive] (empty_world (fun _ => 0)) =
     (Raises (AssertionError "This environment expects exactly 2 agents."),
      empty_world (fun _ => 0))) /\
  (exists self w',
     TwoAgentEnv.init [agent_main; agent_competitive] (empty_world (fun _ => 0)) =
       (Returns self, w') /\
     TwoAgentEnv.agent_policies self = [agent_main; agent_competitive]).
Proof.
  split; [ | split ].
  - apply (proj1 (constructor_requires_two_agents [agent_main] (empty_world (fun _ => 0)))).
    cbn. lia.
  - apply (proj1 (constructor_requires_two_agents
                    [agent_main; agent_ally; agent_competitive] (empty_world (fun _ => 0)))).
    cbn. lia.
  - apply (proj2 (constructor_requires_two_agents
                    [agent_main; agent_competitive] (empty_world (fun _ => 0)))).
    reflexivity.
Defined.

(** C10. The constructor itself runs [reset] on the object it has just
    filled in: right after a construction with two agents, and before any
    other call of [reset], the positions are [[0, 2]] and [step] returns.
    (On the object as it is before that [reset], [step] would fail: the
    attribute [positions] is not bound yet.) *)
Theorem constructor_runs_reset (agent_policies : list NPCPolicy.t) (w : World) :
  length agent_policies = 2%nat ->
  let blank := TwoAgentEnv.mk 5 4 2 agent_policies None in
  exists c self w',
    TwoAgentEnv.reset blank w = (Returns (c, self), w') /\
    TwoAgentEnv.init agent_policies w = (Returns self, w') /\
    constructed self /\
    read_positions self w' = Some [0; 2] /\
    (exists r w'', TwoAgentEnv.step self w' = (Returns r, w'')) /\
    TwoAgentEnv.step blank w = (Raises (AttributeError "positions"), w).
Proof.
  intros Hlen blank.
  do 3 eexists. split; [apply reset_returns | ].
  split; [apply init_returns, Hlen | ].
  assert (Hc : constructed (TwoAgentEnv.mk 5 4 2 agent_policies
                              (Some (length (heap w)))))
    by (repeat split; exact Hlen).
  assert (Hr : read_positions (TwoAgentEnv.mk 5 4 2 agent_policies
                                 (Some (length (heap w))))
                 (mkWorld ((heap w ++ [[0; 2]]) ++ [[0; 2]]) (np_random w)) =
               Some [0; 2])
    by (apply read_positions_fresh; reflexivity).
  split; [exact Hc | ]. split; [exact Hr | ]. split; [ | reflexivity ].
  step_facts (TwoAgentEnv.mk 5 4 2 agent_policies (Some (length (heap w))))
    (mkWorld ((heap w ++ [[0; 2]]) ++ [[0; 2]]) (np_random w)) 0 2 Hc Hr.
  eauto.
Qed.

Lemma constructor_runs_reset_witness :
  length [agent_main; agent_competitive] = 2%nat /\
  exists c self w',
    TwoAgentEnv.reset (TwoAgentEnv.mk 5 4 2 [agent_main; agent_competitive] None)
      (empty_world (fun _ => 0)) = (Returns (c, self), w') /\
    TwoAgentEnv.init [agent_main; agent_competitive] (empty_world (fun _ => 0)) =
      (Returns self, w') /\
    constructed self /\
    read_positions self w' = Some [0; 2] /\
    (exists r w'', TwoAgentEnv.step self w' = (Returns r, w'')) /\
    TwoAgentEnv.step (TwoAgentEnv.mk 5 4 2 [agent_main; agent_competitive] None)
      (empty_world (fun _ => 0)) = (Raises (AttributeError "positions"), empty_world (fun _ => 0)).
Proof.
  split; [reflexivity | ].
  apply (constructor_runs_reset [agent_main; agent_competitive] (empty_world (fun _ => 0))).
  reflexivity.
Defined.

(** ** A step from the actions that were chosen *)

(** [step] in terms of the actions that line 45 yields in the same world. *)
Lemma step_with_actions (self : TwoAgentEnv.t) (w wa : World) (p0 p1 a0 a1 : Z) :
  constructed self ->
  read_positions self w = Some [p0; p1] ->
  TwoAgentEnv.choose_actions self w = (Returns [a0; a1], wa) ->
  let q0 := move 5 a0 p0 in
  let q1 := move 5 a1 p1 in
  let base := if collision 4 q0 q1 then PyFloat.minus_one else PyFloat.zero in
  exists w',
    TwoAgentEnv.step self w =
      (Returns (length (heap w), [bonus 4 q0 base; bonus 4 q1 base],
                (q0 =? 4) || (q1 =? 4), info_of self [q0; q1]), w') /\
    read_positions self w' = Some [q0; q1] /\
    heap w' !! length (heap w) = Some [q0; q1] /\
    np_random w' = np_random wa.
Proof.
  intros Hc Hr Ha. step_facts self w p0 p1 Hc Hr.
  rewrite Hchoose in Ha. injection Ha as Ha0 Ha1 Hwa.
  rewrite Ha0, Ha1 in *. intros q0 q1 base.
  exists w'. rewrite Hrng, <- Hwa. repeat split; assumption.
Qed.

(** The actions of two agents whose decision functions are constant. *)
Lemma choose_actions_always (self : TwoAgentEnv.t) (w : World)
    (A0 A1 : NPCPolicy.t) (p0 p1 a0 a1 : Z) :
  TwoAgentEnv.agent_policies self = [A0; A1] ->
  always A0 a0 -> always A1 a1 ->
  read_positions self w = Some [p0; p1] ->
  exists wa, TwoAgentEnv.choose_actions self w = (Returns [a0; a1], wa).
Proof.
  intros Hagents H0 H1 Hr.
  destruct (read_positions_inv self w _ Hr) as (l & Hl & Hh).
  rewrite (choose_actions_returns self l Hl A0 A1 Hagents p0 p1 w Hh).
  rewrite H0, H1. eauto.
Qed.

(** ** Scenario A: an agent that always plays 1 against one that always plays 0 *)

Ltac scenario_step Hc Hagents H0 H1 Hr :=
  let wa := fresh "wa" in
  let Ha := fresh "Ha" in
  let w' := fresh "w" in
  let Hs := fresh "Hs" in
  let Hr' := fresh "Hr" in
  let Hcopy := fresh "Hcopy" in
  destruct (choose_actions_always _ _ _ _ _ _ 1 0 Hagents H0 H1 Hr) as (wa & Ha);
  destruct (step_with_actions _ _ _ _ _ _ _ Hc Hr Ha) as (w' & Hs & Hr' & Hcopy & _);
  eexists; exists w';
  split; [exact Hs | ]; split; [exact Hr' | ]; split; [exact Hcopy | ];
  clear Ha Hs Hcopy Hr; rename Hr' into Hr.

(** C5. With a first agent whose decision function always returns 1 and a
    second one whose decision function always returns 0, the constructed
    environment starts at [[0, 2]] and its first four steps yield:
    positions [[1, 1]], rewards [[-1.0, -1.0]], not done;
    positions [[2, 0]], rewards [[0.0, 0.0]], not done;
    positions [[3, 0]], rewards [[0.0, 0.0]], not done;
    positions [[4, 0]], rewards [[1.0, 0.0]], done.
    The positions are those of the environment after the step and of the
    copy that the step returns. *)
Theorem scenario_ally_vs_competitive (A0 A1 : NPCPolicy.t) (w : World) :
  always A0 1 ->
  always A1 0 ->
  exists self w0,
    TwoAgentEnv.init [A0; A1] w = (Returns self, w0) /\
    read_positions self w0 = Some [0; 2] /\
  exists c1 w1,
    TwoAgentEnv.step self w0 =
      (Returns (c1, [PyFloat.minus_one; PyFloat.minus_one], false,
                info_of self [1; 1]), w1) /\
    read_positions self w1 = Some [1; 1] /\
    heap w1 !! c1 = Some [1; 1] /\
  exists c2 w2,
    TwoAgentEnv.step self w1 =
      (Returns (c2, [PyFloat.zero; PyFloat.zero], false,
                info_of self [2; 0]), w2) /\
    read_positions self w2 = Some [2; 0] /\
    heap w2 !! c2 = Some [2; 0] /\
  exists c3 w3,
    TwoAgentEnv.step self w2 =
      (Returns (c3, [PyFloat.zero; PyFloat.zero], false,
                info_of self [3; 0]), w3) /\
    read_positions self w3 = Some [3; 0] /\
    heap w3 !! c3 = Some [3; 0] /\
  exists c4 w4,
    TwoAgentEnv.step self w3 =
      (Returns (c4, [PyFloat.one; PyFloat.zero], true,
                info_of self [4; 0]), w4) /\
    read_positions self w4 = Some [4; 0] /\
    heap w4 !! c4 = Some [4; 0].
Proof.
  intros H0 H1.
  do 2 eexists. split; [apply init_returns; reflexivity | ].
  set (self := TwoAgentEnv.mk 5 4 2 [A0; A1] (Some (length (heap w)))).
  assert (Hc : constructed self) by (repeat split).
  assert (Hagents : TwoAgentEnv.agent_policies self = [A0; A1]) by reflexivity.
  assert (Hr : read_positions self
                 (mkWorld ((heap w ++ [[0; 2]]) ++ [[0; 2]]) (np_random w)) =
               Some [0; 2])
    by (apply read_positions_fresh; reflexivity).
  split; [exact Hr | ].
  scenario_step Hc Hagents H0 H1 Hr.
  scenario_step Hc Hagents H0 H1 Hr.
  scenario_step Hc Hagents H0 H1 Hr.
  destruct (choose_actions_always _ _ _ _ _ _ 1 0 Hagents H0 H1 Hr) as (wa4 & Ha).
  destruct (step_with_actions _ _ _ _ _ _ _ Hc Hr Ha) as (w4 & Hs & Hr' & Hcopy & _).
  eexists; exists w4. split; [exact Hs | ]. split; [exact Hr' | exact Hcopy].
Qed.

Lemma scenario_ally_vs_competitive_witness :
  always agent_main 1 /\
  always agent_competitive 0 /\
  exists self w0,
    TwoAgentEnv.init [agent_main; agent_competitive] (empty_world (fun _ => 0)) =
      (Returns self, w0) /\
    read_positions self w0 = Some [0; 2] /\
  exists c1 w1,
    TwoAgentEnv.step self w0 =
      (Returns (c1, [PyFloat.minus_one; PyFloat.minus_one], false,
                info_of self [1; 1]), w1) /\
    read_positions self w1 = Some [1; 1] /\
    heap w1 !! c1 = Some [1; 1] /\
  exists c2 w2,
    TwoAgentEnv.step self w1 =
      (Returns (c2, [PyFloat.zero; PyFloat.zero], false,
                info_of self [2; 0]), w2) /\
    read_positions self w2 = Some [2; 0] /\
    heap w2 !! c2 = Some [2; 0] /\
  exists c3 w3,
    TwoAgentEnv.step self w2 =
      (Returns (c3, [PyFloat.zero; PyFloat.zero], false,
                info_of self [3; 0]), w3) /\
    read_positions self w3 = Some [3; 0] /\
    heap w3 !! c3 = Some [3; 0] /\
  exists c4 w4,
    TwoAgentEnv.step self w3 =
      (Returns (c4, [PyFloat.one; PyFloat.zero], true,
                info_of self [4; 0]), w4) /\
    read_positions self w4 = Some [4; 0] /\
    heap w4 !! c4 = Some [4; 0].
Proof.
  assert (Hmain : always agent_main 1) by (intros env state rs; reflexivity).
  assert (Hcomp : always agent_competitive 0) by (intros env state rs; reflexivity).
  split; [exact Hmain | ]. split; [exact Hcomp | ].
  exact (scenario_ally_vs_competitive agent_main agent_competitive
           (empty_world (fun _ => 0)) Hmain Hcomp).
Defined.

(** ** Movement *)

Lemma move_right (n a p : Z) : a <> 0 -> move n a p = Z.min (n - 1) (p + 1).
Proof. unfold move. intros Hne%Z.eqb_neq. rewrite Hne. reflexivity. Qed.

Lemma move_in_range (a p : Z) : 0 <= p <= 4 -> 0 <= move 5 a p <= 4.
Proof. unfold move. destruct (a =? 0); lia. Qed.

Lemma move_binary (n a p : Z) : move n (if a =? 0 then 0 else 1) p = move n a p.
Proof. unfold move. destruct (a =? 0); reflexivity. Qed.

(** What is known of the chosen actions when a decision function is
    constant. *)
Lemma chosen_actions_always (self : TwoAgentEnv.t) (w wa : World)
    (A0 A1 : NPCPolicy.t) (p0 p1 a0 a1 : Z) :
  TwoAgentEnv.agent_policies self = [A0; A1] ->
  read_positions self w = Some [p0; p1] ->
  TwoAgentEnv.choose_actions self w = (Returns [a0; a1], wa) ->
  (forall a, always A0 a -> a0 = a) /\ (forall a, always A1 a -> a1 = a).
Proof.
  intros Hagents Hr Ha.
  destruct (read_positions_inv self w _ Hr) as (l & Hl & Hh).
  rewrite (choose_actions_returns self l Hl A0 A1 Hagents p0 p1 w Hh) in Ha.
  injection Ha as Ha0 Ha1 _.
  split; intros a Hal; [rewrite <- Ha0 | rewrite <- Ha1]; apply Hal.
Qed.

(** A property of the pair of positions that every step preserves holds
    after any number of steps, all of which return. *)
Lemma steps_invariant (self : TwoAgentEnv.t) (I : Z -> Z -> Prop) :
  constructed self ->
  (forall w wa p0 p1 a0 a1,
     read_positions self w = Some [p0; p1] ->
     TwoAgentEnv.choose_actions self w = (Returns [a0; a1], wa) ->
     I p0 p1 -> I (move 5 a0 p0) (move 5 a1 p1)) ->
  forall n w p0 p1,
    read_positions self w = Some [p0; p1] ->
    I p0 p1 ->
    exists rs w' q0 q1,
      steps self n w = (Returns rs, w') /\
      length rs = n /\
      read_positions self w' = Some [q0; q1] /\
      I q0 q1.
Proof.
  intros Hc Hpres n. induction n as [| n IH]; intros w p0 p1 Hr HI.
  - exists [], w, p0, p1. repeat split; assumption.
  - step_facts self w p0 p1 Hc Hr.
    pose proof (Hpres _ _ _ _ _ _ Hr Hchoose HI) as HI'.
    destruct (IH _ _ _ Hread HI') as (rs & w'' & q0 & q1 & Hs & Hlen & Hr'' & HI'').
    eexists (_ :: rs), w'', q0, q1. cbn [steps].
    rewrite (bind_returns _ _ _ _ _ Hstep), (bind_returns _ _ _ _ _ Hs).
    repeat split; [cbn; congruence | assumption | assumption].
Qed.

(** C3. A step moves both positions: action 0 takes [p] to [max(0, p - 1)]
    and action 1 takes it to [min(4, p + 1)].  Hence, from a reset and
    whatever the decision functions answer, both positions are in [[0, 4]]
    after every step; and a position at 0 of an agent that keeps playing 0
    stays at 0, as a position at 4 of an agent that keeps playing 1 stays
    at 4, however many steps are taken. *)
Theorem movement_is_clamped (self : TwoAgentEnv.t) (w : World) (p0 p1 : Z) (n : nat) :
  constructed self ->
  read_positions self w = Some [p0; p1] ->
  (exists a0 a1 wa r w' q0 q1,
     TwoAgentEnv.choose_actions self w = (Returns [a0; a1], wa) /\
     TwoAgentEnv.step self w = (Returns r, w') /\
     read_positions self w' = Some [q0; q1] /\
     (a0 = 0 -> q0 = Z.max 0 (p0 - 1)) /\
     (a0 = 1 -> q0 = Z.min 4 (p0 + 1)) /\
     (a1 = 0 -> q1 = Z.max 0 (p1 - 1)) /\
     (a1 = 1 -> q1 = Z.min 4 (p1 + 1))) /\
  (exists c self0 w0 rs wn q0 q1,
     TwoAgentEnv.reset self w = (Returns (c, self0), w0) /\
     steps self0 n w0 = (Returns rs, wn) /\
     length rs = n /\
     read_positions self0 wn = Some [q0; q1] /\
     0 <= q0 <= 4 /\ 0 <= q1 <= 4) /\
  (exists A0 A1 rs wn q0 q1,
     TwoAgentEnv.agent_policies self = [A0; A1] /\
     steps self n w = (Returns rs, wn) /\
     length rs = n /\
     read_positions self wn = Some [q0; q1] /\
     (always A0 0 -> p0 = 0 -> q0 = 0) /\
     (always A0 1 -> p0 = 4 -> q0 = 4) /\
     (always A1 0 -> p1 = 0 -> q1 = 0) /\
     (always A1 1 -> p1 = 4 -> q1 = 4)).
Proof.
  intros Hc Hr. split; [ | split ].
  - step_facts self w p0 p1 Hc Hr.
    do 7 eexists. split; [exact Hchoose | ]. split; [exact Hstep | ].
    split; [exact Hread | ].
    repeat split; intros ->; reflexivity.
  - do 3 eexists. rewrite reset_returns.
    set (self0 := with_agents _ _). set (w0 := mkWorld _ _).
    assert (Hc0 : constructed self0) by exact Hc.
    assert (Hr0 : read_positions self0 w0 = Some [0; 2])
      by (apply read_positions_fresh; reflexivity).
    destruct (steps_invariant self0 (fun q0 q1 => 0 <= q0 <= 4 /\ 0 <= q1 <= 4) Hc0)
      with (n := n) (w := w0) (p0 := 0) (p1 := 2)
      as (rs & wn & q0 & q1 & Hs & Hlen & Hrn & Hq0 & Hq1).
    + intros ? ? ? ? ? ? _ _ [? ?]. split; apply move_in_range; assumption.
    + exact Hr0.
    + lia.
    + exists rs, wn, q0, q1. repeat split; solve [assumption | apply Hq0 | apply Hq1].
  - destruct (constructed_agents self Hc) as (A0 & A1 & Hagents).
    destruct (steps_invariant self
                (fun q0 q1 =>
                   (always A0 0 -> p0 = 0 -> q0 = 0) /\
                   (always A0 1 -> p0 = 4 -> q0 = 4) /\
                   (always A1 0 -> p1 = 0 -> q1 = 0) /\
                   (always A1 1 -> p1 = 4 -> q1 = 4)) Hc)
      with (n := n) (w := w) (p0 := p0) (p1 := p1)
      as (rs & wn & q0 & q1 & Hs & Hlen & Hrn & HI).
    + intros v va x0 x1 a0 a1 Hrv Ha (I00 & I04 & I10 & I14).
      destruct (chosen_actions_always self v va A0 A1 x0 x1 a0 a1 Hagents Hrv Ha)
        as (Hk0 & Hk1).
      repeat split; intros Hal Hp.
      * rewrite (Hk0 0 Hal), (I00 Hal Hp). reflexivity.
      * rewrite (Hk0 1 Hal), (I04 Hal Hp). reflexivity.
      * rewrite (Hk1 0 Hal), (I10 Hal Hp). reflexivity.
      * rewrite (Hk1 1 Hal), (I14 Hal Hp). reflexivity.
    + exact Hr.
    + repeat split; intros _ Hp; exact Hp.
    + exists A0, A1, rs, wn, q0, q1. repeat split; solve [assumption | apply HI].
Qed.

Lemma movement_is_clamped_witness :
  constructed main_vs_competitor /\
  read_positions main_vs_competitor (world_at [4; 0]) = Some [4; 0] /\
  (exists a0 a1 wa r w' q0 q1,
     TwoAgentEnv.choose_actions main_vs_competitor (world_at [4; 0]) =
       (Returns [a0; a1], wa) /\
     TwoAgentEnv.step main_vs_competitor (world_at [4; 0]) = (Returns r, w') /\
     read_positions main_vs_competitor w' = Some [q0; q1] /\
     (a0 = 0 -> q0 = Z.max 0 (4 - 1)) /\
     (a0 = 1 -> q0 = Z.min 4 (4 + 1)) /\
     (a1 = 0 -> q1 = Z.max 0 (0 - 1)) /\
     (a1 = 1 -> q1 = Z.min 4 (0 + 1))) /\
  (exists c self0 w0 rs wn q0 q1,
     TwoAgentEnv.reset main_vs_competitor (world_at [4; 0]) =
       (Returns (c, self0), w0) /\
     steps self0 7 w0 = (Returns rs, wn) /\
     length rs = 7%nat /\
     read_positions self0 wn = Some [q0; q1] /\
     0 <= q0 <= 4 /\ 0 <= q1 <= 4) /\
  (exists A0 A1 rs wn q0 q1,
     TwoAgentEnv.agent_policies main_vs_competitor = [A0; A1] /\
     steps main_vs_competitor 7 (world_at [4; 0]) = (Returns rs, wn) /\
     length rs = 7%nat /\
     read_positions main_vs_competitor wn = Some [q0; q1] /\
     (always A0 0 -> 4 = 0 -> q0 = 0) /\
     (always A0 1 -> 4 = 4 -> q0 = 4) /\
     (always A1 0 -> 0 = 0 -> q1 = 0) /\
     (always A1 1 -> 0 = 4 -> q1 = 4)).
Proof.
  split; [apply constructed_main_vs_competitor | ].
  split; [reflexivity | ].
  apply (movement_is_clamped main_vs_competitor (world_at [4; 0]) 4 0 7).
  - apply constructed_main_vs_competitor.
  - reflexivity.
Defined.

(** ** The decisions of a step *)

(** C4. In every call of [step], whatever the two decision functions are,
    both are applied to the same view of the environment, the one at the
    start of the step, whose positions are the pair before any movement,
    and each to its agent's own position at the start of the step; the
    positions after the step are the moves by these two decisions.  No
    decision is taken on a position that the step has already updated. *)
Theorem decisions_see_start_of_step (self : TwoAgentEnv.t) (w : World) (p0 p1 : Z) :
  constructed self ->
  read_positions self w = Some [p0; p1] ->
  exists A0 A1 env,
    TwoAgentEnv.agent_policies self = [A0; A1] /\
    TwoAgentEnv.view self w = (Returns env, w) /\
    EnvView.positions env = [p0; p1] /\
    let d0 := NPCPolicy.policy_func A0 env p0 (np_random w) in
    let d1 := NPCPolicy.policy_func A1 env p1 (snd d0) in
    TwoAgentEnv.choose_actions self w =
      (Returns [fst d0; fst d1], mkWorld (heap w) (snd d1)) /\
    exists r w',
      TwoAgentEnv.step self w = (Returns r, w') /\
      read_positions self w' = Some [move 5 (fst d0) p0; move 5 (fst d1) p1].
Proof.
  intros Hc Hr. step_facts self w p0 p1 Hc Hr.
  destruct (read_positions_inv self w _ Hr) as (l & Hl & Hh).
  exists A0, A1, (view_of self [p0; p1]).
  split; [exact Hagents | ].
  split; [apply (view_returns self l Hl w _ Hh) | ].
  split; [reflexivity | ].
  cbv zeta. split; [exact Hchoose | ].
  do 2 eexists. split; [exact Hstep | exact Hread].
Qed.

Lemma decisions_see_start_of_step_witness :
  constructed (env_of agent_main agent_watcher) /\
  read_positions (env_of agent_main agent_watcher) (world_at [0; 2]) = Some [0; 2] /\
  exists A0 A1 env,
    TwoAgentEnv.agent_policies (env_of agent_main agent_watcher) = [A0; A1] /\
    TwoAgentEnv.view (env_of agent_main agent_watcher) (world_at [0; 2]) =
      (Returns env, world_at [0; 2]) /\
    EnvView.positions env = [0; 2] /\
    let d0 := NPCPolicy.policy_func A0 env 0 (np_random (world_at [0; 2])) in
    let d1 := NPCPolicy.policy_func A1 env 2 (snd d0) in
    TwoAgentEnv.choose_actions (env_of agent_main agent_watcher) (world_at [0; 2]) =
      (Returns [fst d0; fst d1], mkWorld (heap (world_at [0; 2])) (snd d1)) /\
    exists r w',
      TwoAgentEnv.step (env_of agent_main agent_watcher) (world_at [0; 2]) =
        (Returns r, w') /\
      read_positions (env_of agent_main agent_watcher) w' =
        Some [move 5 (fst d0) 0; move 5 (fst d1) 2].
Proof.
  split; [repeat split | ].
  split; [reflexivity | ].
  apply (decisions_see_start_of_step (env_of agent_main agent_watcher)
           (world_at [0; 2]) 0 2).
  - repeat split.
  - reflexivity.
Defined.

(** The watcher decides on agent 0 at position 0, where it is when the
    step starts, not at position 1, where the step takes it: the watcher
    plays 1 and ends on 3. *)
Example watcher_sees_start_of_step :
  TwoAgentEnv.choose_actions (env_of agent_main agent_watcher) (world_at [0; 2]) =
    (Returns [1; 1], world_at [0; 2]) /\
  read_positions (env_of agent_main agent_watcher)
    (snd (TwoAgentEnv.step (env_of agent_main agent_watcher) (world_at [0; 2]))) =
    Some [1; 3].
Proof. split; vm_compute; reflexivity. Qed.

(** ** Actions outside {0, 1} *)

Lemma binary_agents_view (self : TwoAgentEnv.t) (ps : list Z) :
  view_of (with_agents self (map binary_agent (TwoAgentEnv.agent_policies self))) ps =
  view_of self ps.
Proof.
  unfold view_of, with_agents. cbn [TwoAgentEnv.num_positions TwoAgentEnv.goal
    TwoAgentEnv.num_actions TwoAgentEnv.agent_policies].
  rewrite map_map. reflexivity.
Qed.

Lemma binary_agents_info (self : TwoAgentEnv.t) (ps : list Z) :
  info_of (with_agents self (map binary_agent (TwoAgentEnv.agent_policies self))) ps =
  info_of self ps.
Proof.
  unfold info_of, with_agents. cbn [TwoAgentEnv.agent_policies].
  generalize (TwoAgentEnv.agent_policies self). intros agents.
  revert ps. induction agents as [| a agents IH]; intros [| p ps]; cbn;
    [reflexivity .. | ].
  f_equal. apply IH.
Qed.

(** Replacing every decision function by its binary version changes
    neither the result of a step nor the world it leaves. *)
Lemma step_binary (self : TwoAgentEnv.t) (w : World) (p0 p1 : Z) :
  constructed self ->
  read_positions self w = Some [p0; p1] ->
  TwoAgentEnv.step
    (with_agents self (map binary_agent (TwoAgentEnv.agent_policies self))) w =
  TwoAgentEnv.step self w.
Proof.
  intros Hc Hr.
  destruct (constructed_agents self Hc) as (A0 & A1 & Hagents).
  destruct (read_positions_inv self w _ Hr) as (l & Hl & Hh).
  set (self' := with_agents self (map binary_agent (TwoAgentEnv.agent_policies self))).
  assert (Hl' : TwoAgentEnv.positions self' = Some l) by exact Hl.
  assert (Hagents' : TwoAgentEnv.agent_policies self' =
                     [binary_agent A0; binary_agent A1])
    by (unfold self'; rewrite Hagents; reflexivity).
  rewrite (step_returns self' l Hl' _ _ Hagents' p0 p1 w Hh).
  rewrite (step_returns self l Hl _ _ Hagents p0 p1 w Hh).
  assert (Hv : forall ps, view_of self' ps = view_of self ps)
    by apply binary_agents_view.
  assert (Hi : forall ps, info_of self' ps = info_of self ps)
    by apply binary_agents_info.
  cbv zeta. rewrite !Hv, !Hi.
  change (TwoAgentEnv.num_positions self') with (TwoAgentEnv.num_positions self).
  change (TwoAgentEnv.goal self') with (TwoAgentEnv.goal self).
  cbn [binary_agent NPCPolicy.policy_func binary fst snd].
  rewrite !move_binary. reflexivity.
Qed.

(** C8. [step] returns whatever integers the decision functions answer:
    there is no error for an action outside {0, 1}.  An action other than
    0 moves its agent as action 1 does, to [min(4, p + 1)]: the step has
    the same result and leaves the same world as if the decision had been
    1; and a position in [[0, 4]] stays in [[0, 4]]. *)
Theorem nonzero_action_is_move_right (self : TwoAgentEnv.t) (w : World) (p0 p1 : Z) :
  constructed self ->
  read_positions self w = Some [p0; p1] ->
  exists a0 a1 wa r w' q0 q1,
    TwoAgentEnv.choose_actions self w = (Returns [a0; a1], wa) /\
    TwoAgentEnv.step self w = (Returns r, w') /\
    read_positions self w' = Some [q0; q1] /\
    (a0 <> 0 -> q0 = Z.min 4 (p0 + 1)) /\
    (a1 <> 0 -> q1 = Z.min 4 (p1 + 1)) /\
    (0 <= p0 <= 4 -> 0 <= q0 <= 4) /\
    (0 <= p1 <= 4 -> 0 <= q1 <= 4) /\
    TwoAgentEnv.step
      (with_agents self (map binary_agent (TwoAgentEnv.agent_policies self))) w =
      (Returns r, w').
Proof.
  intros Hc Hr. step_facts self w p0 p1 Hc Hr.
  do 7 eexists. split; [exact Hchoose | ]. split; [exact Hstep | ].
  split; [exact Hread | ].
  split; [intros Hne; apply (move_right 5), Hne | ].
  split; [intros Hne; apply (move_right 5), Hne | ].
  split; [apply move_in_range | ].
  split; [apply move_in_range | ].
  rewrite (step_binary self w p0 p1 Hc Hr). exact Hstep.
Qed.

Lemma nonzero_action_is_move_right_witness :
  constructed (env_of (agent_fixed 7) (agent_fixed (-3))) /\
  read_positions (env_of (agent_fixed 7) (agent_fixed (-3))) (world_at [0; 2]) =
    Some [0; 2] /\
  exists a0 a1 wa r w' q0 q1,
    TwoAgentEnv.choose_actions (env_of (agent_fixed 7) (agent_fixed (-3)))
      (world_at [0; 2]) = (Returns [a0; a1], wa) /\
    TwoAgentEnv.step (env_of (agent_fixed 7) (agent_fixed (-3))) (world_at [0; 2]) =
      (Returns r, w') /\
    read_positions (env_of (agent_fixed 7) (agent_fixed (-3))) w' = Some [q0; q1] /\
    (a0 <> 0 -> q0 = Z.min 4 (0 + 1)) /\
    (a1 <> 0 -> q1 = Z.min 4 (2 + 1)) /\
    (0 <= 0 <= 4 -> 0 <= q0 <= 4) /\
    (0 <= 2 <= 4 -> 0 <= q1 <= 4) /\
    TwoAgentEnv.step
      (with_agents (env_of (agent_fixed 7) (agent_fixed (-3)))
         (map binary_agent
            (TwoAgentEnv.agent_policies (env_of (agent_fixed 7) (agent_fixed (-3))))))
      (world_at [0; 2]) = (Returns r, w').
Proof.
  split; [repeat split | ].
  split; [reflexivity | ].
  apply (nonzero_action_is_move_right (env_of (agent_fixed 7) (agent_fixed (-3)))
           (world_at [0; 2]) 0 2).
  - repeat split.
  - reflexivity.
Defined.

(** Actions 7 and -3 from [[0, 2]]: both agents move right. *)
Example stray_actions_move_right :
  TwoAgentEnv.choose_actions (env_of (agent_fixed 7) (agent_fixed (-3)))
    (world_at [0; 2]) = (Returns [7; -3], world_at [0; 2]) /\
  read_positions (env_of (agent_fixed 7) (agent_fixed (-3)))
    (snd (TwoAgentEnv.step (env_of (agent_fixed 7) (agent_fixed (-3)))
            (world_at [0; 2]))) = Some [1; 3].
Proof. split; vm_compute; reflexivity. Qed.

(** ** The states that a program reaches *)

(** The hypotheses of the theorems above hold in every state reached
    through the interface, with both positions in [[0, 4]]. *)
Lemma reachable_ready (self : TwoAgentEnv.t) (w : World) :
  reachable self w ->
  constructed self /\
  exists p0 p1,
    read_positions self w = Some [p0; p1] /\ 0 <= p0 <= 4 /\ 0 <= p1 <= 4.
Proof.
  induction 1 as [ ps w self w' Hinit
                 | self w c self' w' _ IH Hreset
                 | self w r w' _ IH Hstep
                 | self w w' _ IH Hsame ].
  - unfold TwoAgentEnv.init in Hinit. case_decide as Hlen; [ | discriminate ].
    rewrite (bind_returns _ _ _ _ _ (reset_returns _ w)) in Hinit.
    injection Hinit as <- <-.
    split; [repeat split; exact Hlen | ].
    exists 0, 2. split; [apply read_positions_fresh; reflexivity | lia].
  - destruct IH as (Hc & _). rewrite reset_returns in Hreset.
    injection Hreset as _ <- <-.
    split; [exact Hc | ].
    exists 0, 2. split; [apply read_positions_fresh; reflexivity | lia].
  - destruct IH as (Hc & p0 & p1 & Hr & H0 & H1).
    step_facts self w p0 p1 Hc Hr.
    rewrite Hstep0 in Hstep. injection Hstep as _ <-.
    split; [exact Hc | ].
    do 2 eexists. split; [exact Hread | ].
    split; apply move_in_range; assumption.
  - destruct IH as (Hc & p0 & p1 & Hr & H0 & H1).
    split; [exact Hc | ].
    exists p0, p1. rewrite Hsame. auto.
Qed.

(** In a reachable state [step] returns, and so does any number of
    consecutive steps. *)
Lemma reachable_steps (self : TwoAgentEnv.t) (w : World) (n : nat) :
  reachable self w ->
  exists rs w', steps self n w = (Returns rs, w') /\ reachable self w'.
Proof.
  revert w. induction n as [| n IH]; intros w Hreach.
  - exists [], w. split; [reflexivity | exact Hreach].
  - destruct (reachable_ready self w Hreach) as (Hc & p0 & p1 & Hr & _).
    step_facts self w p0 p1 Hc Hr.
    destruct (IH w' (reachable_step _ _ _ _ Hreach Hstep)) as (rs & w'' & Hs & Hreach').
    eexists (_ :: rs), w''. cbn [steps].
    rewrite (bind_returns _ _ _ _ _ Hstep), (bind_returns _ _ _ _ _ Hs).
    split; [reflexivity | exact Hreach'].
Qed.

(** The random decision function of the driver answers 0 or 1, whatever
    the random source holds. *)
Lemma dialogue_policy_binary (env : EnvView.t) (state : Z) (rs : NpRandom.RandomState) :
  fst (dialogue_policy env state rs) = 0 \/ fst (dialogue_policy env state rs) = 1.
Proof.
  unfold dialogue_policy, NpRandom.randint. cbn [fst].
  pose proof (Z.mod_pos_bound (NpRandom.source rs (NpRandom.drawn rs)) 2). lia.
Qed.

(** * More of the program *)

(** ** What [step] and [reset] do to the store *)

(** The world that a step leaves: the list of the environment is written
    in place and one new list is allocated. *)
Lemma step_world (self : TwoAgentEnv.t) (w : World) (p0 p1 : Z) :
  constructed self ->
  read_positions self w = Some [p0; p1] ->
  exists l r q0 q1 rs,
    TwoAgentEnv.positions self = Some l /\
    heap w !! l = Some [p0; p1] /\
    TwoAgentEnv.step self w =
      (Returns r, mkWorld (<[l := [q0; q1]]> (heap w) ++ [[q0; q1]]) rs) /\
    result_state r = length (heap w).
Proof.
  intros Hc Hr.
  destruct (constructed_agents self Hc) as (A0 & A1 & Hagents).
  destruct (read_positions_inv self w _ Hr) as (l & Hl & Hh).
  pose proof (step_returns self l Hl A0 A1 Hagents p0 p1 w Hh) as Hstep.
  cbv zeta in Hstep.
  do 5 eexists. split; [exact Hl | ]. split; [exact Hh | ].
  split; [exact Hstep | reflexivity].
Qed.

(** The frame of a step: the lists that are not the list of the
    environment keep their contents. *)
Lemma step_keeps_other_lists (self : TwoAgentEnv.t) (w w' : World) (p0 p1 : Z)
    (r : TwoAgentEnv.step_result) :
  constructed self ->
  read_positions self w = Some [p0; p1] ->
  TwoAgentEnv.step self w = (Returns r, w') ->
  forall l' xs,
    TwoAgentEnv.positions self <> Some l' ->
    heap w !! l' = Some xs -> heap w' !! l' = Some xs.
Proof.
  intros Hc Hr Hstep.
  destruct (step_world self w p0 p1 Hc Hr)
    as (l & r0 & q0 & q1 & rs & Hl & Hh & Hstep0 & _).
  rewrite Hstep0 in Hstep. injection Hstep as _ <-. cbn [heap].
  intros l' xs Hne Hl'.
  rewrite lookup_app_l
    by (rewrite length_insert; eapply lookup_lt_Some, Hl').
  rewrite list_lookup_insert_ne by congruence. exact Hl'.
Qed.



(** X2. The list that a step returns is a snapshot: it holds the positions
    after that step, it is not the list of the environment, writing to
    it does not change the positions of the environment, and the next
    step, which moves the environment, leaves it as it is. *)
Theorem step_returns_snapshot (self : TwoAgentEnv.t) (w : World) (p0 p1 : Z) :
  constructed self ->
  read_positions self w = Some [p0; p1] ->
  exists r1 w1 q0 q1,
    TwoAgentEnv.step self w = (Returns r1, w1) /\
    read_positions self w1 = Some [q0; q1] /\
    heap w1 !! result_state r1 = Some [q0; q1] /\
    TwoAgentEnv.positions self <> Some (result_state r1) /\
    (forall xs,
       read_positions self (snd (store (result_state r1) xs w1)) = Some [q0; q1]) /\
    exists r2 w2,
      TwoAgentEnv.step self w1 = (Returns r2, w2) /\
      heap w2 !! result_state r1 = Some [q0; q1].
Proof.
  intros Hc Hr.
  destruct (step_world self w p0 p1 Hc Hr)
    as (l & r & q0 & q1 & rs & Hl & Hh & Hstep & Hstate).
  assert (Hlt : (l < length (heap w))%nat) by (eapply lookup_lt_Some, Hh).
  set (w1 := mkWorld _ rs) in Hstep.
  assert (Hr1 : read_positions self w1 = Some [q0; q1]).
  { rewrite (read_positions_bound _ _ l Hl). unfold w1. cbn [heap].
    rewrite lookup_app_l by (rewrite length_insert; exact Hlt).
    apply list_lookup_insert_eq, Hlt. }
  assert (Hcopy : heap w1 !! result_state r = Some [q0; q1]).
  { rewrite Hstate. unfold w1. cbn [heap].
    rewrite <- (length_insert (heap w) l [q0; q1]). apply heap_lookup_new. }
  assert (Hne : TwoAgentEnv.positions self <> Some (result_state r)).
  { rewrite Hl, Hstate. intros [= ->]. lia. }
  exists r, w1, q0, q1.
  split; [exact Hstep | ]. split; [exact Hr1 | ]. split; [exact Hcopy | ].
  split; [exact Hne | ]. split.
  - intros xs. rewrite (read_positions_bound _ _ l Hl).
    unfold store. cbn [snd heap].
    rewrite list_lookup_insert_ne by (rewrite Hl in Hne; congruence).
    rewrite (read_positions_bound _ _ l Hl) in Hr1. exact Hr1.
  - destruct (step_world self w1 q0 q1 Hc Hr1)
      as (l2 & r2 & y0 & y1 & rs2 & _ & _ & Hstep2 & _).
    do 2 eexists. split; [exact Hstep2 | ].
    apply (step_keeps_other_lists self w1 _ q0 q1 r2 Hc Hr1 Hstep2); assumption.
Qed.

Lemma step_returns_snapshot_witness :
  constructed main_vs_competitor /\
  read_positions main_vs_competitor (world_at [0; 2]) = Some [0; 2] /\
  exists r1 w1 q0 q1,
    TwoAgentEnv.step main_vs_competitor (world_at [0; 2]) = (Returns r1, w1) /\
    read_positions main_vs_competitor w1 = Some [q0; q1] /\
    heap w1 !! result_state r1 = Some [q0; q1] /\
    TwoAgentEnv.positions main_vs_competitor <> Some (result_state r1) /\
    (forall xs,
       read_positions main_vs_competitor (snd (store (result_state r1) xs w1)) =
         Some [q0; q1]) /\
    exists r2 w2,
      TwoAgentEnv.step main_vs_competitor w1 = (Returns r2, w2) /\
      heap w2 !! result_state r1 = Some [q0; q1].
Proof.
  split; [apply constructed_main_vs_competitor | ].
  split; [reflexivity | ].
  apply (step_returns_snapshot main_vs_competitor (world_at [0; 2]) 0 2).
  - apply constructed_main_vs_competitor.
  - reflexivity.
Defined.

(** X3. [reset] does not write to the list that the environment held: it
    binds the attribute to a new list.  A reference to the old list still
    reads the old positions after the reset, is no longer the list of the
    environment, and is not the list that is returned; no existing list
    changes. *)
Theorem reset_leaves_old_list (self : TwoAgentEnv.t) (w : World)
    (l : ref) (ps : list Z) :
  TwoAgentEnv.positions self = Some l ->
  heap w !! l = Some ps ->
  exists c self' w',
    TwoAgentEnv.reset self w = (Returns (c, self'), w') /\
    heap w' !! l = Some ps /\
    TwoAgentEnv.positions self' <> Some l /\
    c <> l /\
    forall l' xs, heap w !! l' = Some xs -> heap w' !! l' = Some xs.
Proof.
  intros Hl Hh.
  assert (Hlt : (l < length (heap w))%nat) by (eapply lookup_lt_Some, Hh).
  do 3 eexists. split; [apply reset_returns | ]. cbn [heap].
  assert (Hframe : forall l' xs,
            heap w !! l' = Some xs ->
            ((heap w ++ [[0; 2]]) ++ [[0; 2]]) !! l' = Some xs)
    by (intros l' xs Hl'; apply heap_lookup_alloc, heap_lookup_alloc, Hl').
  split; [apply Hframe, Hh | ].
  split; [cbn; intros [= Heq]; lia | ].
  split; [lia | exact Hframe].
Qed.

Lemma reset_leaves_old_list_witness :
  TwoAgentEnv.positions main_vs_competitor = Some 0%nat /\
  heap (world_at [4; 0]) !! 0%nat = Some [4; 0] /\
  exists c self' w',
    TwoAgentEnv.reset main_vs_competitor (world_at [4; 0]) =
      (Returns (c, self'), w') /\
    heap w' !! 0%nat = Some [4; 0] /\
    TwoAgentEnv.positions self' <> Some 0%nat /\
    c <> 0%nat /\
    forall l' xs,
      heap (world_at [4; 0]) !! l' = Some xs -> heap w' !! l' = Some xs.
Proof.
  split; [reflexivity | ]. split; [reflexivity | ].
  apply (reset_leaves_old_list main_vs_competitor (world_at [4; 0]) 0%nat [4; 0]);
    reflexivity.
Defined.

(** ** What a result of [step] tells *)

(** X4. The rewards of a step tell where the agents are after it: a
    reward is -1.0 exactly when both agents are on a common position other
    than 4 (and then both rewards are -1.0), it is 1.0 exactly when its
    agent is on 4, and it is 0.0 exactly when its agent is not on 4 and
    the agents are apart.  No other value is ever returned. *)
Theorem rewards_tell_positions (self : TwoAgentEnv.t) (w : World) (p0 p1 : Z) :
  constructed self ->
  read_positions self w = Some [p0; p1] ->
  exists c r0 r1 done info w' q0 q1,
    TwoAgentEnv.step self w = (Returns (c, [r0; r1], done, info), w') /\
    read_positions self w' = Some [q0; q1] /\
    (r0 = PyFloat.minus_one <-> q0 = q1 /\ q0 <> 4) /\
    (r1 = PyFloat.minus_one <-> q0 = q1 /\ q0 <> 4) /\
    (r0 = PyFloat.one <-> q0 = 4) /\
    (r1 = PyFloat.one <-> q1 = 4) /\
    (r0 = PyFloat.zero <-> q0 <> 4 /\ q0 <> q1) /\
    (r1 = PyFloat.zero <-> q1 <> 4 /\ q0 <> q1).
Proof.
  intros Hc Hr. step_facts self w p0 p1 Hc Hr.
  set (q0 := move 5 _ p0) in *. set (q1 := move 5 _ p1) in *.
  do 8 eexists. split; [exact Hstep | ]. split; [exact Hread | ].
  clearbody q0 q1. unfold bonus, collision.
  destruct (Z.eqb_spec q0 q1), (Z.eqb_spec q0 4), (Z.eqb_spec q1 4);
    cbn [andb negb];
    change (PyFloat.add PyFloat.zero PyFloat.one) with PyFloat.one;
    change (PyFloat.add PyFloat.minus_one PyFloat.one) with PyFloat.zero;
    repeat split; intros; try reflexivity; try lia; try discriminate.
Qed.

Lemma rewards_tell_positions_witness :
  constructed main_vs_competitor /\
  read_positions main_vs_competitor (world_at [0; 2]) = Some [0; 2] /\
  exists c r0 r1 done info w' q0 q1,
    TwoAgentEnv.step main_vs_competitor (world_at [0; 2]) =
      (Returns (c, [r0; r1], done, info), w') /\
    read_positions main_vs_competitor w' = Some [q0; q1] /\
    (r0 = PyFloat.minus_one <-> q0 = q1 /\ q0 <> 4) /\
    (r1 = PyFloat.minus_one <-> q0 = q1 /\ q0 <> 4) /\
    (r0 = PyFloat.one <-> q0 = 4) /\
    (r1 = PyFloat.one <-> q1 = 4) /\
    (r0 = PyFloat.zero <-> q0 <> 4 /\ q0 <> q1) /\
    (r1 = PyFloat.zero <-> q1 <> 4 /\ q0 <> q1).
Proof.
  split; [apply constructed_main_vs_competitor | ].
  split; [reflexivity | ].
  apply (rewards_tell_positions main_vs_competitor (world_at [0; 2]) 0 2).
  - apply constructed_main_vs_competitor.
  - reflexivity.
Defined.

(** The info of a step, entry by entry. *)
Lemma info_of_two (self : TwoAgentEnv.t) (A0 A1 : NPCPolicy.t) (q0 q1 : Z) :
  TwoAgentEnv.agent_policies self = [A0; A1] ->
  info_of self [q0; q1] =
    [TwoAgentEnv.mk_info (NPCPolicy.role A0) (NPCPolicy.name A0) q0;
     TwoAgentEnv.mk_info (NPCPolicy.role A1) (NPCPolicy.name A1) q1].
Proof. unfold info_of. intros ->. reflexivity. Qed.

(** X5. The info of a step has one entry per agent, in the order of the
    agents, with the role and the name of the agent and its position
    after the step: the positions in the info are those of the returned
    state and of the environment. *)
Theorem info_agrees_with_state (self : TwoAgentEnv.t) (w : World) (p0 p1 : Z) :
  constructed self ->
  read_positions self w = Some [p0; p1] ->
  exists A0 A1 r w' q0 q1,
    TwoAgentEnv.agent_policies self = [A0; A1] /\
    TwoAgentEnv.step self w = (Returns r, w') /\
    read_positions self w' = Some [q0; q1] /\
    heap w' !! result_state r = Some [q0; q1] /\
    result_info r =
      [TwoAgentEnv.mk_info (NPCPolicy.role A0) (NPCPolicy.name A0) q0;
       TwoAgentEnv.mk_info (NPCPolicy.role A1) (NPCPolicy.name A1) q1] /\
    map TwoAgentEnv.info_pos (result_info r) = [q0; q1].
Proof.
  intros Hc Hr. step_facts self w p0 p1 Hc Hr.
  do 6 eexists. split; [exact Hagents | ]. split; [exact Hstep | ].
  split; [exact Hread | ]. split; [exact Hcopy | ].
  unfold result_info. cbn [snd]. rewrite (info_of_two self A0 A1 _ _ Hagents).
  split; reflexivity.
Qed.

Lemma info_agrees_with_state_witness :
  constructed main_vs_competitor /\
  read_positions main_vs_competitor (world_at [0; 2]) = Some [0; 2] /\
  exists A0 A1 r w' q0 q1,
    TwoAgentEnv.agent_policies main_vs_competitor = [A0; A1] /\
    TwoAgentEnv.step main_vs_competitor (world_at [0; 2]) = (Returns r, w') /\
    read_positions main_vs_competitor w' = Some [q0; q1] /\
    heap w' !! result_state r = Some [q0; q1] /\
    result_info r =
      [TwoAgentEnv.mk_info (NPCPolicy.role A0) (NPCPolicy.name A0) q0;
       TwoAgentEnv.mk_info (NPCPolicy.role A1) (NPCPolicy.name A1) q1] /\
    map TwoAgentEnv.info_pos (result_info r) = [q0; q1].
Proof.
  split; [apply constructed_main_vs_competitor | ].
  split; [reflexivity | ].
  apply (info_agrees_with_state main_vs_competitor (world_at [0; 2]) 0 2).
  - apply constructed_main_vs_competitor.
  - reflexivity.
Defined.

(** ** A list of positions that is too short *)

Lemma bind_raises {A B : Type} (m : M A) (k : A -> M B) (w w' : World) (e : exn) :
  m w = (Raises e, w') -> Py.bind m k w = (Raises e, w').
Proof. unfold Py.bind. intros ->. reflexivity. Qed.

Lemma positions_get_raises (self : TwoAgentEnv.t) (l : ref) (w : World)
    (xs : list Z) (i : nat) :
  TwoAgentEnv.positions self = Some l ->
  heap w !! l = Some xs -> xs !! i = None ->
  TwoAgentEnv.positions_get self i w = (Raises IndexError, w).
Proof.
  intros Hl Hh Hi. unfold TwoAgentEnv.positions_get.
  rewrite (bind_returns _ _ _ _ _ (self_positions_returns self l Hl w)).
  unfold getitem.
  rewrite (bind_returns _ _ _ _ _ (load_returns _ _ _ Hh)), Hi. reflexivity.
Qed.

(** The comprehension of line 45 stops at the end of the list of
    positions, whatever agents are left. *)
Lemma act_all_exhausted (self : TwoAgentEnv.t) (l : ref) (w : World)
    (xs : list Z) (agents : list NPCPolicy.t) (i : nat) :
  heap w !! l = Some xs -> xs !! i = None ->
  TwoAgentEnv.act_all self l agents i w = (Returns [], w).
Proof.
  intros Hh Hi. destruct agents as [| agent agents]; [reflexivity | ].
  cbn [TwoAgentEnv.act_all].
  rewrite (bind_returns _ _ _ _ _ (load_returns _ _ _ Hh)), Hi. reflexivity.
Qed.

(** X7. [step] on a list of positions that has lost elements raises
    [IndexError], and is not undone.  On an empty list no decision
    function is called and nothing changes.  On a list of one position,
    the first agent has decided and its position has moved when the
    collision check raises: the world keeps the moved position and the
    draws that the decision consumed. *)
Theorem step_on_short_list (self : TwoAgentEnv.t) (w : World) (l : ref)
    (A0 : NPCPolicy.t) (rest : list NPCPolicy.t) :
  TwoAgentEnv.positions self = Some l ->
  TwoAgentEnv.agent_policies self = A0 :: rest ->
  (heap w !! l = Some [] ->
     TwoAgentEnv.step self w = (Raises IndexError, w)) /\
  (forall p0,
     heap w !! l = Some [p0] ->
     let d0 := NPCPolicy.policy_func A0 (view_of self [p0]) p0 (np_random w) in
     TwoAgentEnv.step self w =
       (Raises IndexError,
        mkWorld (<[l := [move (TwoAgentEnv.num_positions self) (fst d0) p0]]> (heap w))
                (snd d0))).
Proof.
  intros Hl Hagents. split.
  - intros Hh. unfold TwoAgentEnv.step, TwoAgentEnv.choose_actions.
    rewrite bind_assoc.
    rewrite (bind_returns _ _ _ _ _ (self_positions_returns self l Hl w)).
    rewrite (bind_returns _ _ _ _ _
               (act_all_exhausted self l w [] _ 0 Hh eq_refl)).
    cbn [TwoAgentEnv.update_positions]. rewrite bind_ret.
    apply bind_raises. unfold TwoAgentEnv.collision_penalty.
    apply bind_raises. apply (positions_get_raises self l w [] 0 Hl Hh eq_refl).
  - intros p0 Hh d0.
    assert (Hlt : (l < length (heap w))%nat) by (eapply lookup_lt_Some, Hh).
    unfold TwoAgentEnv.step, TwoAgentEnv.choose_actions.
    rewrite bind_assoc.
    rewrite (bind_returns _ _ _ _ _ (self_positions_returns self l Hl w)).
    rewrite Hagents. cbn [TwoAgentEnv.act_all].
    rewrite !bind_assoc.
    rewrite (bind_returns _ _ _ _ _ (load_returns _ _ _ Hh)).
    cbn [lookup list_lookup]. rewrite !bind_assoc.
    rewrite (bind_returns _ _ _ _ _ (view_returns self l Hl w _ Hh)).
    rewrite !bind_assoc.
    rewrite (bind_returns _ _ _ _ _ (act_returns A0 _ p0 w)).
    fold d0. set (w1 := mkWorld (heap w) (snd d0)).
    assert (H1 : heap w1 !! l = Some [p0]) by exact Hh.
    rewrite !bind_assoc.
    rewrite (bind_returns _ _ _ _ _
               (act_all_exhausted self l w1 [p0] rest 1 H1 eq_refl)).
    rewrite !bind_ret. cbn [TwoAgentEnv.update_positions].
    rewrite !bind_assoc.
    rewrite bind_returns with (a := tt)
      (w' := mkWorld (<[l := [move (TwoAgentEnv.num_positions self) (fst d0) p0]]>
                        (heap w1)) (np_random w1)).
    2:{ unfold move. destruct (fst d0 =? 0);
        rewrite (bind_returns _ _ _ _ _
                   (positions_get_returns self l Hl w1 [p0] 0 p0 H1 eq_refl));
        apply (positions_set_returns self l Hl w1 [p0] 0 _ H1); cbn; lia. }
    rewrite bind_ret. set (w2 := mkWorld _ (np_random w1)).
    assert (H2 : heap w2 !! l =
                 Some [move (TwoAgentEnv.num_positions self) (fst d0) p0])
      by (apply list_lookup_insert_eq, Hlt).
    apply bind_raises. unfold TwoAgentEnv.collision_penalty.
    rewrite (bind_returns _ _ _ _ _
               (positions_get_returns self l Hl w2 _ 0 _ H2 eq_refl)).
    apply bind_raises. apply (positions_get_raises self l w2 _ 1 Hl H2 eq_refl).
Qed.

Lemma step_on_short_list_witness :
  TwoAgentEnv.positions main_vs_competitor = Some 0%nat /\
  TwoAgentEnv.agent_policies main_vs_competitor = agent_main :: [agent_competitive] /\
  heap (world_at []) !! 0%nat = Some [] /\
  TwoAgentEnv.step main_vs_competitor (world_at []) =
    (Raises IndexError, world_at []) /\
  heap (world_at [3]) !! 0%nat = Some [3] /\
  (let d0 := NPCPolicy.policy_func agent_main (view_of main_vs_competitor [3]) 3
               (np_random (world_at [3])) in
   TwoAgentEnv.step main_vs_competitor (world_at [3]) =
     (Raises IndexError,
      mkWorld (<[0%nat := [move (TwoAgentEnv.num_positions main_vs_competitor)
                             (fst d0) 3]]> (heap (world_at [3])))
              (snd d0))).
Proof.
  split; [reflexivity | ]. split; [reflexivity | ].
  split; [reflexivity | ]. split; [ | split; [reflexivity | ] ].
  - apply (proj1 (step_on_short_list main_vs_competitor (world_at []) 0%nat
                    agent_main [agent_competitive] eq_refl eq_refl)).
    reflexivity.
  - apply (proj2 (step_on_short_list main_vs_competitor (world_at [3]) 0%nat
                    agent_main [agent_competitive] eq_refl eq_refl) 3).
    reflexivity.
Defined.

(** After the failed step on [[3]], the list of the environment holds
    [[4]]. *)
Example failed_step_keeps_move :
  TwoAgentEnv.step main_vs_competitor (world_at [3]) =
    (Raises IndexError, world_at [4]).
Proof. vm_compute. reflexivity. Qed.

(** ** Runs of consecutive steps *)

(** What a call of [step] that has returned tells: the actions that were
    chosen are answers of the two decision functions, the positions have
    moved by them, and the result is settled on the positions reached. *)
Lemma step_inversion (self : TwoAgentEnv.t) (w w' : World) (A0 A1 : NPCPolicy.t)
    (p0 p1 q0 q1 : Z) (r : TwoAgentEnv.step_result) :
  constructed self ->
  TwoAgentEnv.agent_policies self = [A0; A1] ->
  read_positions self w = Some [p0; p1] ->
  TwoAgentEnv.step self w = (Returns r, w') ->
  read_positions self w' = Some [q0; q1] ->
  exists env rs0 rs1,
    let a0 := fst (NPCPolicy.policy_func A0 env p0 rs0) in
    let a1 := fst (NPCPolicy.policy_func A1 env p1 rs1) in
    let base := if collision 4 q0 q1 then PyFloat.minus_one else PyFloat.zero in
    q0 = move 5 a0 p0 /\
    q1 = move 5 a1 p1 /\
    result_rewards r = [bonus 4 q0 base; bonus 4 q1 base] /\
    result_done r = (q0 =? 4) || (q1 =? 4) /\
    result_info r = info_of self [q0; q1].
Proof.
  intros Hc Hagents Hr Hstep Hr'. step_facts self w p0 p1 Hc Hr.
  rewrite Hagents in Hagents0. injection Hagents0 as <- <-.
  rewrite Hstep0 in Hstep. injection Hstep as <- <-.
  rewrite Hread in Hr'. injection Hr' as <- <-.
  do 3 eexists. cbv zeta. repeat split; reflexivity.
Qed.

(** A property of the positions that every step preserves, and a property
    of the results that every step from such positions has, hold along any
    number of steps, all of which return. *)
Lemma steps_forall (self : TwoAgentEnv.t) (I : Z -> Z -> Prop)
    (P : TwoAgentEnv.step_result -> Prop) :
  constructed self ->
  (forall w w' p0 p1 q0 q1 r,
     read_positions self w = Some [p0; p1] ->
     I p0 p1 ->
     TwoAgentEnv.step self w = (Returns r, w') ->
     read_positions self w' = Some [q0; q1] ->
     I q0 q1 /\ P r) ->
  forall n w p0 p1,
    read_positions self w = Some [p0; p1] ->
    I p0 p1 ->
    exists rs w' q0 q1,
      steps self n w = (Returns rs, w') /\
      length rs = n /\
      Forall P rs /\
      read_positions self w' = Some [q0; q1] /\
      I q0 q1.
Proof.
  intros Hc Hpres n. induction n as [| n IH]; intros w p0 p1 Hr HI.
  - exists [], w, p0, p1. repeat split; [constructor | assumption ..].
  - step_facts self w p0 p1 Hc Hr.
    destruct (Hpres _ _ _ _ _ _ _ Hr HI Hstep Hread) as (HI' & HP).
    destruct (IH _ _ _ Hread HI')
      as (rs & w'' & q0 & q1 & Hs & Hlen & Hall & Hr'' & HI'').
    eexists (_ :: rs), w'', q0, q1. cbn [steps].
    rewrite (bind_returns _ _ _ _ _ Hstep), (bind_returns _ _ _ _ _ Hs).
    repeat split; [cbn; congruence | constructor; assumption | assumption ..].
Qed.

(** X6. [step] has no guard against a call after the end of an episode.
    When an agent is on the goal and its decision function never answers
    0, every later step returns, with [done] true and the reward 1.0 for
    that agent once more. *)
Theorem step_after_done_pays_again (self : TwoAgentEnv.t) (w : World)
    (A0 A1 : NPCPolicy.t) (p0 p1 : Z) (n : nat) :
  constructed self ->
  TwoAgentEnv.agent_policies self = [A0; A1] ->
  read_positions self w = Some [p0; p1] ->
  exists rs w',
    steps self n w = (Returns rs, w') /\
    length rs = n /\
    (p0 = 4 -> never A0 0 ->
       Forall (fun r => result_done r = true /\
                        result_rewards r !! 0%nat = Some PyFloat.one) rs) /\
    (p1 = 4 -> never A1 0 ->
       Forall (fun r => result_done r = true /\
                        result_rewards r !! 1%nat = Some PyFloat.one) rs).
Proof.
  intros Hc Hagents Hr.
  destruct (steps_forall self
              (fun q0 q1 => (p0 = 4 -> never A0 0 -> q0 = 4) /\
                            (p1 = 4 -> never A1 0 -> q1 = 4))
              (fun r => (p0 = 4 -> never A0 0 ->
                           result_done r = true /\
                           result_rewards r !! 0%nat = Some PyFloat.one) /\
                        (p1 = 4 -> never A1 0 ->
                           result_done r = true /\
                           result_rewards r !! 1%nat = Some PyFloat.one)) Hc)
    with (n := n) (w := w) (p0 := p0) (p1 := p1)
    as (rs & w' & q0 & q1 & Hs & Hlen & Hall & _ & _).
  - intros v v' x0 x1 y0 y1 r Hrv (I0 & I1) Hstep Hrv'.
    destruct (step_inversion self v v' A0 A1 x0 x1 y0 y1 r Hc Hagents Hrv Hstep Hrv')
      as (env & rs0 & rs1 & Hy0 & Hy1 & Hrew & Hdone & _).
    assert (K0 : p0 = 4 -> never A0 0 -> y0 = 4).
    { intros Hp Hn. rewrite Hy0, (move_right 5) by apply Hn.
      rewrite (I0 Hp Hn). reflexivity. }
    assert (K1 : p1 = 4 -> never A1 0 -> y1 = 4).
    { intros Hp Hn. rewrite Hy1, (move_right 5) by apply Hn.
      rewrite (I1 Hp Hn). reflexivity. }
    split; [split; assumption | ].
    rewrite Hrew, Hdone. split; intros Hp Hn.
    + rewrite (K0 Hp Hn). split; [reflexivity | ]. cbn [lookup list_lookup].
      rewrite bonus_at_goal, collision_excludes_goal by reflexivity. reflexivity.
    + rewrite (K1 Hp Hn). split; [apply orb_true_r | ]. cbn [lookup list_lookup].
      rewrite bonus_at_goal, collision_excludes_goal by apply orb_true_r.
      reflexivity.
  - exact Hr.
  - split; intros Hp _; exact Hp.
  - exists rs, w'. split; [exact Hs | ]. split; [exact Hlen | ].
    split; intros Hp Hn; eapply Forall_impl; try exact Hall;
      intros r (H0 & H1); [apply H0 | apply H1]; assumption.
Qed.

Lemma step_after_done_pays_again_witness :
  constructed main_vs_competitor /\
  TwoAgentEnv.agent_policies main_vs_competitor = [agent_main; agent_competitive] /\
  read_positions main_vs_competitor (world_at [4; 0]) = Some [4; 0] /\
  exists rs w',
    steps main_vs_competitor 3 (world_at [4; 0]) = (Returns rs, w') /\
    length rs = 3%nat /\
    (4 = 4 -> never agent_main 0 ->
       Forall (fun r => result_done r = true /\
                        result_rewards r !! 0%nat = Some PyFloat.one) rs) /\
    (0 = 4 -> never agent_competitive 0 ->
       Forall (fun r => result_done r = true /\
                        result_rewards r !! 1%nat = Some PyFloat.one) rs).
Proof.
  split; [apply constructed_main_vs_competitor | ].
  split; [reflexivity | ]. split; [reflexivity | ].
  apply (step_after_done_pays_again main_vs_competitor (world_at [4; 0])
           agent_main agent_competitive 4 0 3).
  - apply constructed_main_vs_competitor.
  - reflexivity.
  - reflexivity.
Defined.

(** ** Episodes from a reset *)

(** The environment and the world that [reset] leaves. *)
Lemma reset_ready (self : TwoAgentEnv.t) (w : World) :
  constructed self ->
  exists c self0 w0,
    TwoAgentEnv.reset self w = (Returns (c, self0), w0) /\
    constructed self0 /\
    TwoAgentEnv.agent_policies self0 = TwoAgentEnv.agent_policies self /\
    read_positions self0 w0 = Some [0; 2].
Proof.
  intros Hc. do 3 eexists. split; [apply reset_returns | ].
  split; [exact Hc | ]. split; [reflexivity | ].
  apply read_positions_fresh. reflexivity.
Qed.

(** X8. The first step after a reset never ends the episode, whatever the
    two decision functions answer: an episode has at least two steps. *)
Theorem first_step_is_never_done (self : TwoAgentEnv.t) (w : World) :
  constructed self ->
  exists c self0 w0 r w1,
    TwoAgentEnv.reset self w = (Returns (c, self0), w0) /\
    TwoAgentEnv.step self0 w0 = (Returns r, w1) /\
    result_done r = false.
Proof.
  intros Hc.
  destruct (reset_ready self w Hc) as (c & self0 & w0 & Hreset & Hc0 & _ & Hr0).
  step_facts self0 w0 0 2 Hc0 Hr0.
  do 5 eexists. split; [exact Hreset | ]. split; [exact Hstep | ].
  unfold result_done. cbn [fst snd]. unfold move.
  repeat match goal with |- context [if ?b then _ else _] => destruct b end;
    reflexivity.
Qed.

Lemma first_step_is_never_done_witness :
  constructed (env_of (agent_fixed 7) agent_ally) /\
  exists c self0 w0 r w1,
    TwoAgentEnv.reset (env_of (agent_fixed 7) agent_ally) (world_at [4; 3]) =
      (Returns (c, self0), w0) /\
    TwoAgentEnv.step self0 w0 = (Returns r, w1) /\
    result_done r = false.
Proof.
  split; [repeat split | ].
  apply (first_step_is_never_done (env_of (agent_fixed 7) agent_ally)
           (world_at [4; 3])).
  repeat split.
Defined.

Lemma steps_cons (self : TwoAgentEnv.t) (n : nat) (w w' w'' : World)
    (r : TwoAgentEnv.step_result) (rs : list TwoAgentEnv.step_result) :
  TwoAgentEnv.step self w = (Returns r, w') ->
  steps self n w' = (Returns rs, w'') ->
  steps self (S n) w = (Returns (r :: rs), w'').
Proof.
  intros Hstep Hs. cbn [steps].
  rewrite (bind_returns _ _ _ _ _ Hstep), (bind_returns _ _ _ _ _ Hs).
  reflexivity.
Qed.

(** One step, summed up: where the agents end, what is returned, and what
    is known of the moves when a decision function is constant or never
    answers 0. *)
Lemma step_summary (self : TwoAgentEnv.t) (w : World) (A0 A1 : NPCPolicy.t)
    (p0 p1 : Z) :
  constructed self ->
  TwoAgentEnv.agent_policies self = [A0; A1] ->
  read_positions self w = Some [p0; p1] ->
  exists r w' q0 q1,
    TwoAgentEnv.step self w = (Returns r, w') /\
    read_positions self w' = Some [q0; q1] /\
    map TwoAgentEnv.info_pos (result_info r) = [q0; q1] /\
    result_done r = (q0 =? 4) || (q1 =? 4) /\
    result_rewards r =
      [bonus 4 q0 (if collision 4 q0 q1 then PyFloat.minus_one else PyFloat.zero);
       bonus 4 q1 (if collision 4 q0 q1 then PyFloat.minus_one else PyFloat.zero)] /\
    (forall a, always A0 a -> q0 = move 5 a p0) /\
    (forall a, always A1 a -> q1 = move 5 a p1) /\
    (never A0 0 -> q0 = Z.min 4 (p0 + 1)) /\
    (never A1 0 -> q1 = Z.min 4 (p1 + 1)).
Proof.
  intros Hc Hagents Hr. step_facts self w p0 p1 Hc Hr.
  destruct (step_inversion self w w' A0 A1 p0 p1 _ _ _ Hc Hagents Hr Hstep Hread)
    as (env & rs0 & rs1 & Hq0 & Hq1 & Hrew & Hdone & Hinfo).
  do 4 eexists. split; [exact Hstep | ]. split; [exact Hread | ].
  split; [rewrite Hinfo, (info_of_two self A0 A1 _ _ Hagents); reflexivity | ].
  split; [exact Hdone | ]. split; [exact Hrew | ].
  split; [intros a Ha; rewrite Hq0 at 1; rewrite Ha; reflexivity | ].
  split; [intros a Ha; rewrite Hq1 at 1; rewrite Ha; reflexivity | ].
  split; intros Hn; [rewrite Hq0 at 1 | rewrite Hq1 at 1];
    apply (move_right 5), Hn.
Qed.

Lemma reward_on_goal_left (q : Z) :
  bonus 4 4 (if collision 4 4 q then PyFloat.minus_one else PyFloat.zero) =
  PyFloat.one.
Proof. rewrite bonus_at_goal, collision_excludes_goal by reflexivity. reflexivity. Qed.

Lemma reward_on_goal_right (q : Z) :
  bonus 4 4 (if collision 4 q 4 then PyFloat.minus_one else PyFloat.zero) =
  PyFloat.one.
Proof.
  rewrite bonus_at_goal, collision_excludes_goal by apply orb_true_r. reflexivity.
Qed.

Tactic Notation "next_step" constr(Hc) constr(Hagents) constr(Hr)
    "as" simple_intropattern(pat) :=
  destruct (step_summary _ _ _ _ _ _ Hc Hagents Hr) as pat.

(** X9. An agent whose decision function never answers 0 ends the episode,
    whatever the other agent does.  From a reset, the first agent is on
    positions 1, 2, 3, 4 after steps 1 to 4, and the fourth step returns
    [done] true with reward 1.0 for it; the second agent is on 3 and 4
    after steps 1 and 2, and the second step returns [done] true with
    reward 1.0 for it. *)
Theorem eager_agent_ends_episode (self : TwoAgentEnv.t) (w : World)
    (A0 A1 : NPCPolicy.t) :
  constructed self ->
  TwoAgentEnv.agent_policies self = [A0; A1] ->
  exists c self0 w0,
    TwoAgentEnv.reset self w = (Returns (c, self0), w0) /\
    (never A0 0 ->
       exists r1 r2 r3 r4 w4,
         steps self0 4 w0 = (Returns [r1; r2; r3; r4], w4) /\
         map TwoAgentEnv.info_pos (result_info r1) !! 0%nat = Some 1 /\
         map TwoAgentEnv.info_pos (result_info r2) !! 0%nat = Some 2 /\
         map TwoAgentEnv.info_pos (result_info r3) !! 0%nat = Some 3 /\
         map TwoAgentEnv.info_pos (result_info r4) !! 0%nat = Some 4 /\
         result_done r4 = true /\
         result_rewards r4 !! 0%nat = Some PyFloat.one) /\
    (never A1 0 ->
       exists r1 r2 w2,
         steps self0 2 w0 = (Returns [r1; r2], w2) /\
         map TwoAgentEnv.info_pos (result_info r1) !! 1%nat = Some 3 /\
         map TwoAgentEnv.info_pos (result_info r2) !! 1%nat = Some 4 /\
         result_done r2 = true /\
         result_rewards r2 !! 1%nat = Some PyFloat.one).
Proof.
  intros Hc Hagents.
  destruct (reset_ready self w Hc) as (c & self0 & w0 & Hreset & Hc0 & Hag0 & Hr0).
  rewrite Hagents in Hag0.
  exists c, self0, w0. split; [exact Hreset | ].
  next_step Hc0 Hag0 Hr0
    as (r1 & w1 & x1 & y1 & Hs1 & Hr1 & Hi1 & Hd1 & Hw1 & _ & _ & Hx1 & Hy1).
  next_step Hc0 Hag0 Hr1
    as (r2 & w2 & x2 & y2 & Hs2 & Hr2 & Hi2 & Hd2 & Hw2 & _ & _ & Hx2 & Hy2).
  split.
  - intros Hn.
    next_step Hc0 Hag0 Hr2
      as (r3 & w3 & x3 & y3 & Hs3 & Hr3 & Hi3 & Hd3 & Hw3 & _ & _ & Hx3 & _).
    next_step Hc0 Hag0 Hr3
      as (r4 & w4 & x4 & y4 & Hs4 & Hr4 & Hi4 & Hd4 & Hw4 & _ & _ & Hx4 & _).
    exists r1, r2, r3, r4, w4.
    split; [repeat (eapply steps_cons; [eassumption | ]); reflexivity | ].
    specialize (Hx1 Hn). specialize (Hx2 Hn).
    specialize (Hx3 Hn). specialize (Hx4 Hn). subst x1 x2 x3 x4.
    rewrite Hi1, Hi2, Hi3, Hi4, Hd4, Hw4.
    repeat split. cbn [lookup list_lookup]. f_equal.
    apply (reward_on_goal_left y4).
  - intros Hn.
    exists r1, r2, w2.
    split; [repeat (eapply steps_cons; [eassumption | ]); reflexivity | ].
    specialize (Hy1 Hn). specialize (Hy2 Hn). subst y1 y2.
    rewrite Hi1, Hi2, Hd2, Hw2.
    split; [reflexivity | ]. split; [reflexivity | ].
    split; [apply orb_true_r | ]. cbn [lookup list_lookup]. f_equal.
    apply (reward_on_goal_right x2).
Qed.

Lemma never_fixed_7 : never (agent_fixed 7) 0.
Proof. intros env state rs. discriminate. Qed.

Lemma eager_agent_ends_episode_witness :
  constructed (env_of (agent_fixed 7) agent_dialogue) /\
  TwoAgentEnv.agent_policies (env_of (agent_fixed 7) agent_dialogue) =
    [agent_fixed 7; agent_dialogue] /\
  never (agent_fixed 7) 0 /\
  exists c self0 w0,
    TwoAgentEnv.reset (env_of (agent_fixed 7) agent_dialogue) (world_at [3; 1]) =
      (Returns (c, self0), w0) /\
    exists r1 r2 r3 r4 w4,
      steps self0 4 w0 = (Returns [r1; r2; r3; r4], w4) /\
      map TwoAgentEnv.info_pos (result_info r1) !! 0%nat = Some 1 /\
      map TwoAgentEnv.info_pos (result_info r2) !! 0%nat = Some 2 /\
      map TwoAgentEnv.info_pos (result_info r3) !! 0%nat = Some 3 /\
      map TwoAgentEnv.info_pos (result_info r4) !! 0%nat = Some 4 /\
      result_done r4 = true /\
      result_rewards r4 !! 0%nat = Some PyFloat.one.
Proof.
  split; [repeat split | ]. split; [reflexivity | ].
  split; [exact never_fixed_7 | ].
  destruct (eager_agent_ends_episode (env_of (agent_fixed 7) agent_dialogue)
              (world_at [3; 1]) (agent_fixed 7) agent_dialogue)
    as (c & self0 & w0 & Hreset & Hfirst & _).
  - repeat split.
  - reflexivity.
  - exists c, self0, w0. split; [exact Hreset | ]. exact (Hfirst never_fixed_7).
Defined.

(** X10. Two agents whose decision functions always answer 0, as the
    default decision function does, never end an episode.  From a reset,
    however many steps are taken, every step returns with [done] false;
    from the second step on both agents are on position 0 and both
    rewards are -1.0. *)
Theorem idle_agents_never_finish (self : TwoAgentEnv.t) (w : World)
    (A0 A1 : NPCPolicy.t) (n : nat) :
  constructed self ->
  TwoAgentEnv.agent_policies self = [A0; A1] ->
  always A0 0 ->
  always A1 0 ->
  exists c self0 w0 rs wn,
    TwoAgentEnv.reset self w = (Returns (c, self0), w0) /\
    steps self0 n w0 = (Returns rs, wn) /\
    length rs = n /\
    Forall (fun r => result_done r = false) rs /\
    forall i r,
      rs !! i = Some r -> (1 <= i)%nat ->
      result_rewards r = [PyFloat.minus_one; PyFloat.minus_one] /\
      map TwoAgentEnv.info_pos (result_info r) = [0; 0].
Proof.
  intros Hc Hagents H0 H1.
  destruct (reset_ready self w Hc) as (c & self0 & w0 & Hreset & Hc0 & Hag0 & Hr0).
  rewrite Hagents in Hag0.
  exists c, self0, w0.
  destruct n as [| n].
  { exists [], w0. split; [exact Hreset | ]. split; [reflexivity | ].
    split; [reflexivity | ]. split; [constructor | ].
    intros i r Hi. discriminate. }
  next_step Hc0 Hag0 Hr0
    as (r1 & w1 & x1 & y1 & Hs1 & Hr1 & Hi1 & Hd1 & Hw1 & Hx1 & Hy1 & _ & _).
  specialize (Hx1 0 H0). specialize (Hy1 0 H1). subst x1 y1.
  destruct (steps_forall self0
              (fun q0 q1 => q0 = 0 /\ 0 <= q1 <= 1)
              (fun r => result_done r = false /\
                        result_rewards r = [PyFloat.minus_one; PyFloat.minus_one] /\
                        map TwoAgentEnv.info_pos (result_info r) = [0; 0]) Hc0)
    with (n := n) (w := w1) (p0 := move 5 0 0) (p1 := move 5 0 2)
    as (rs & wn & q0 & q1 & Hs & Hlen & Hall & _ & _).
  - intros v v' a0 a1 b0 b1 r Hrv (Ha0 & Ha1) Hstep Hrv'.
    destruct (step_summary self0 v A0 A1 a0 a1 Hc0 Hag0 Hrv)
      as (r' & v'' & b0' & b1' & Hs' & Hr' & Hi' & Hd' & Hw' & Hb0 & Hb1 & _ & _).
    rewrite Hs' in Hstep. injection Hstep as <- <-.
    rewrite Hr' in Hrv'. injection Hrv' as <- <-.
    specialize (Hb0 0 H0). specialize (Hb1 0 H1).
    assert (Hz0 : b0' = 0) by (rewrite Hb0; unfold move; cbn; lia).
    assert (Hz1 : b1' = 0) by (rewrite Hb1; unfold move; cbn; lia).
    rewrite Hd', Hw', Hi', Hz0, Hz1.
    split; [lia | ]. repeat split.
  - exact Hr1.
  - cbn. lia.
  - exists (r1 :: rs), wn. split; [exact Hreset | ].
    split; [exact (steps_cons _ _ _ _ _ _ _ Hs1 Hs) | ].
    split; [cbn; congruence | ].
    split.
    + constructor; [exact Hd1 | ].
      eapply Forall_impl; [exact Hall | ]. intros r (Hd & _). exact Hd.
    + intros [| i] r Hi Hge; [lia | ]. cbn in Hi.
      destruct (proj1 (Forall_lookup _ rs) Hall i r Hi) as (_ & Hw & Hinf).
      split; assumption.
Qed.

Lemma idle_agents_never_finish_witness :
  constructed (env_of agent_competitive (NPCPolicy.init None None None None)) /\
  TwoAgentEnv.agent_policies
    (env_of agent_competitive (NPCPolicy.init None None None None)) =
    [agent_competitive; NPCPolicy.init None None None None] /\
  always agent_competitive 0 /\
  always (NPCPolicy.init None None None None) 0 /\
  exists c self0 w0 rs wn,
    TwoAgentEnv.reset (env_of agent_competitive (NPCPolicy.init None None None None))
      (world_at [4; 4]) = (Returns (c, self0), w0) /\
    steps self0 10 w0 = (Returns rs, wn) /\
    length rs = 10%nat /\
    Forall (fun r => result_done r = false) rs /\
    forall i r,
      rs !! i = Some r -> (1 <= i)%nat ->
      result_rewards r = [PyFloat.minus_one; PyFloat.minus_one] /\
      map TwoAgentEnv.info_pos (result_info r) = [0; 0].
Proof.
  assert (Hcomp : always agent_competitive 0) by (intros env state rs; reflexivity).
  assert (Hdef : always (NPCPolicy.init None None None None) 0)
    by (intros env state rs; reflexivity).
  split; [repeat split | ]. split; [reflexivity | ].
  split; [exact Hcomp | ]. split; [exact Hdef | ].
  apply (idle_agents_never_finish
           (env_of agent_competitive (NPCPolicy.init None None None None))
           (world_at [4; 4]) agent_competitive (NPCPolicy.init None None None None) 10).
  - repeat split.
  - reflexivity.
  - exact Hcomp.
  - exact Hdef.
Defined.

(** X12. Two agents whose decision functions always answer 1: the
    constructed environment goes to [[1, 3]] with rewards [[0.0, 0.0]],
    not done, and then to [[2, 4]] with rewards [[0.0, 1.0]], done: the
    second agent ends the episode at the second step while the first is
    still on its way. *)
Theorem scenario_two_allies (A0 A1 : NPCPolicy.t) (w : World) :
  always A0 1 ->
  always A1 1 ->
  exists self w0 r1 w1 r2 w2,
    TwoAgentEnv.init [A0; A1] w = (Returns self, w0) /\
    TwoAgentEnv.step self w0 = (Returns r1, w1) /\
    read_positions self w1 = Some [1; 3] /\
    heap w1 !! result_state r1 = Some [1; 3] /\
    result_rewards r1 = [PyFloat.zero; PyFloat.zero] /\
    result_done r1 = false /\
    TwoAgentEnv.step self w1 = (Returns r2, w2) /\
    read_positions self w2 = Some [2; 4] /\
    heap w2 !! result_state r2 = Some [2; 4] /\
    result_rewards r2 = [PyFloat.zero; PyFloat.one] /\
    result_done r2 = true.
Proof.
  intros H0 H1.
  set (self := TwoAgentEnv.mk 5 4 2 [A0; A1] (Some (length (heap w)))).
  assert (Hc : constructed self) by (repeat split).
  assert (Hagents : TwoAgentEnv.agent_policies self = [A0; A1]) by reflexivity.
  assert (Hr : read_positions self
                 (mkWorld ((heap w ++ [[0; 2]]) ++ [[0; 2]]) (np_random w)) =
               Some [0; 2])
    by (apply read_positions_fresh; reflexivity).
  destruct (choose_actions_always _ _ _ _ _ _ 1 1 Hagents H0 H1 Hr) as (wa1 & Ha1).
  destruct (step_with_actions _ _ _ _ _ _ _ Hc Hr Ha1)
    as (w1 & Hs1 & Hr1 & Hcopy1 & _).
  destruct (choose_actions_always _ _ _ _ _ _ 1 1 Hagents H0 H1 Hr1) as (wa2 & Ha2).
  destruct (step_with_actions _ _ _ _ _ _ _ Hc Hr1 Ha2)
    as (w2 & Hs2 & Hr2 & Hcopy2 & _).
  do 6 eexists. split; [apply init_returns; reflexivity | ].
  split; [exact Hs1 | ]. split; [exact Hr1 | ]. split; [exact Hcopy1 | ].
  split; [reflexivity | ]. split; [reflexivity | ].
  split; [exact Hs2 | ]. split; [exact Hr2 | ]. split; [exact Hcopy2 | ].
  split; reflexivity.
Qed.

Lemma scenario_two_allies_witness :
  always agent_main 1 /\
  always agent_ally 1 /\
  exists self w0 r1 w1 r2 w2,
    TwoAgentEnv.init [agent_main; agent_ally] (empty_world (fun _ => 0)) =
      (Returns self, w0) /\
    TwoAgentEnv.step self w0 = (Returns r1, w1) /\
    read_positions self w1 = Some [1; 3] /\
    heap w1 !! result_state r1 = Some [1; 3] /\
    result_rewards r1 = [PyFloat.zero; PyFloat.zero] /\
    result_done r1 = false /\
    TwoAgentEnv.step self w1 = (Returns r2, w2) /\
    read_positions self w2 = Some [2; 4] /\
    heap w2 !! result_state r2 = Some [2; 4] /\
    result_rewards r2 = [PyFloat.zero; PyFloat.one] /\
    result_done r2 = true.
Proof.
  assert (Hmain : always agent_main 1) by (intros env state rs; reflexivity).
  assert (Hally : always agent_ally 1) by (intros env state rs; reflexivity).
  split; [exact Hmain | ]. split; [exact Hally | ].
  exact (scenario_two_allies agent_main agent_ally (empty_world (fun _ => 0))
           Hmain Hally).
Defined.

(** ** class NPCPolicy: the constructor and [__repr__] *)

(** X11. The defaults of the constructor of [NPCPolicy].  The name is the
    one given unless it is absent or empty, in which case it is the role;
    so a policy has an empty name only if its role is empty.  Without a
    decision function the policy answers 0 to every question and leaves
    the world as it is. *)
Theorem npc_policy_defaults (role : option string) (policy_func : option NPCPolicy.policy)
    (goal : option Z) (name : option string) :
  let p := NPCPolicy.init role policy_func goal name in
  NPCPolicy.role p = default "Ally"%string role /\
  (forall n, name = Some n -> n <> EmptyString -> NPCPolicy.name p = n) /\
  (name = None \/ name = Some EmptyString -> NPCPolicy.name p = NPCPolicy.role p) /\
  (NPCPolicy.name p = EmptyString -> NPCPolicy.role p = EmptyString) /\
  (policy_func = None ->
     forall env state w, NPCPolicy.act p env state w = (Returns 0, w)).
Proof.
  cbv zeta. unfold NPCPolicy.init. cbn [NPCPolicy.role NPCPolicy.name].
  split; [reflexivity | ].
  split; [intros n -> Hne; case_decide; [contradiction | reflexivity] | ].
  split; [intros [-> | ->]; [reflexivity | case_decide; [reflexivity | contradiction]] | ].
  split.
  - destruct name as [n |]; [ | intros Hn; exact Hn ].
    case_decide as Hd; [intros Hn; exact Hn | intros Hn; contradiction].
  - intros -> env state [h rs]. reflexivity.
Qed.

Lemma npc_policy_defaults_witness :
  let p := NPCPolicy.init (Some "Scout"%string) None None (Some EmptyString) in
  NPCPolicy.role p = "Scout"%string /\
  NPCPolicy.name p = "Scout"%string /\
  forall env state w, NPCPolicy.act p env state w = (Returns 0, w).
Proof.
  cbv zeta.
  destruct (npc_policy_defaults (Some "Scout"%string) None None (Some EmptyString))
    as (Hrole & _ & Hname & _ & Hact).
  split; [exact Hrole | ].
  split; [rewrite Hname by (right; reflexivity); exact Hrole | ].
  exact (Hact eq_refl).
Defined.

(** ** The driver *)

(** The state that a step returns holds the positions that its info
    carries. *)
Lemma step_state_and_info (self : TwoAgentEnv.t) (w : World) (p0 p1 : Z) :
  constructed self ->
  read_positions self w = Some [p0; p1] ->
  exists r w' q0 q1,
    TwoAgentEnv.step self w = (Returns r, w') /\
    read_positions self w' = Some [q0; q1] /\
    heap w' !! result_state r = Some [q0; q1] /\
    map TwoAgentEnv.info_pos (result_info r) = [q0; q1].
Proof.
  intros Hc Hr. step_facts self w p0 p1 Hc Hr.
  do 4 eexists. split; [exact Hstep | ]. split; [exact Hread | ].
  split; [exact Hcopy | ].
  unfold result_info. cbn [snd]. rewrite (info_of_two self A0 A1 _ _ Hagents).
  reflexivity.
Qed.

Lemma io_bind_lift {A B : Type} (m : M A) (k : A -> Driver.IO B)
    (w w' : World) (a : A) :
  m w = (Returns a, w') -> Driver.bind (Driver.lift m) k w = k a w'.
Proof.
  unfold Driver.bind, Driver.lift. intros ->. cbn. destruct (k a w'). reflexivity.
Qed.

Lemma io_bind_print {B : Type} (line : Driver.printed) (k : unit -> Driver.IO B)
    (w : World) :
  Driver.bind (Driver.print line) k w = (line :: fst (k tt w), snd (k tt w)).
Proof. reflexivity. Qed.

(** One round of the loop of the driver. *)
Lemma episode_round (self : TwoAgentEnv.t) (w : World) (p0 p1 : Z)
    (step : nat) (range : list nat) :
  constructed self ->
  read_positions self w = Some [p0; p1] ->
  exists r w' q0 q1,
    TwoAgentEnv.step self w = (Returns r, w') /\
    read_positions self w' = Some [q0; q1] /\
    Driver.episode self (step :: range) w =
      (line_of (step + 1) r ::
         fst ((if result_done r then Driver.ret tt else Driver.episode self range) w'),
       snd ((if result_done r then Driver.ret tt else Driver.episode self range) w')).
Proof.
  intros Hc Hr.
  destruct (step_state_and_info self w p0 p1 Hc Hr)
    as (r & w' & q0 & q1 & Hstep & Hread & Hcopy & Hinfo).
  exists r, w', q0, q1. split; [exact Hstep | ]. split; [exact Hread | ].
  cbn [Driver.episode].
  rewrite (io_bind_lift _ _ _ _ _ Hstep).
  rewrite (io_bind_lift _ _ _ _ _ (load_returns _ _ _ Hcopy)).
  rewrite io_bind_print. unfold line_of. rewrite Hinfo. reflexivity.
Qed.

(** The loop of the driver over [range(s, s + n)]. *)
Lemma episode_from (self : TwoAgentEnv.t) :
  constructed self ->
  forall n s w p0 p1,
    read_positions self w = Some [p0; p1] ->
    exists rs w' q0 q1,
      steps self (length rs) w = (Returns rs, w') /\
      read_positions self w' = Some [q0; q1] /\
      (length rs <= n)%nat /\
      (0 < n -> 0 < length rs)%nat /\
      Driver.episode self (seq s n) w =
        (zip_with line_of (seq (s + 1) (length rs)) rs, (Returns tt, w')) /\
      (forall i r, rs !! i = Some r -> (S i < length rs)%nat ->
                   result_done r = false) /\
      ((length rs < n)%nat ->
         exists r, last rs = Some r /\ result_done r = true).
Proof.
  intros Hc n. induction n as [| n IH]; intros s w p0 p1 Hr.
  - exists [], w, p0, p1. cbn.
    repeat split; try lia; try exact Hr; intros i r Hi; discriminate.
  - destruct (episode_round self w p0 p1 s (seq (S s) n) Hc Hr)
      as (r & w1 & q0 & q1 & Hstep & Hr1 & Hep).
    cbn [seq]. rewrite Hep. clear Hep.
    destruct (result_done r) eqn:Hdone.
    + exists [r], w1, q0, q1. cbn [length].
      split; [exact (steps_cons self 0 w w1 w1 r [] Hstep eq_refl) | ].
      split; [exact Hr1 | ]. split; [lia | ]. split; [lia | ].
      split; [rewrite Nat.add_1_r; reflexivity | ].
      split; [intros i r' _ Hlt; lia | ].
      intros _. exists r. split; [reflexivity | exact Hdone].
    + destruct (IH (S s) w1 q0 q1 Hr1)
        as (rs & w' & y0 & y1 & Hs & Hr' & Hle & Hpos & Hep & Hearly & Hlast).
      exists (r :: rs), w', y0, y1. cbn [length].
      split; [exact (steps_cons _ _ _ _ _ _ _ Hstep Hs) | ].
      split; [exact Hr' | ]. split; [lia | ]. split; [lia | ].
      split; [rewrite Hep, Nat.add_1_r; cbn [fst snd seq zip_with];
              rewrite <- (Nat.add_1_r (S s)); reflexivity | ].
      split.
      * intros [| i] r' Hi Hlt; cbn in Hi.
        -- injection Hi as <-. exact Hdone.
        -- apply (Hearly i r' Hi). lia.
      * intros Hlt. destruct Hlast as (r' & Hl & Hd); [lia | ].
        exists r'. split; [ | exact Hd ].
        destruct rs as [| r0 rs0]; [discriminate | ].
        rewrite last_cons, Hl. reflexivity.
Qed.

(** X13. The loop of the driver over [range(n)] calls [step] until a
    result has [done] true, at most [n] times and at least once when [n]
    is not zero, and never raises.  It prints one line per call, numbered
    from 1, with the positions, the rewards and the info of that call:
    the lines are those of the first [k] consecutive steps, none but the
    last of which is done; if the loop stops before [n] calls, the last
    one is done. *)
Theorem episode_runs_until_done (self : TwoAgentEnv.t) (w : World)
    (p0 p1 : Z) (n : nat) :
  constructed self ->
  read_positions self w = Some [p0; p1] ->
  exists k rs w',
    (k <= n)%nat /\
    (0 < n -> 0 < k)%nat /\
    length rs = k /\
    steps self k w = (Returns rs, w') /\
    Driver.episode self (seq 0 n) w =
      (zip_with line_of (seq 1 k) rs, (Returns tt, w')) /\
    (forall i r, rs !! i = Some r -> (S i < k)%nat -> result_done r = false) /\
    ((k < n)%nat -> exists r, last rs = Some r /\ result_done r = true).
Proof.
  intros Hc Hr.
  destruct (episode_from self Hc n 0 w p0 p1 Hr)
    as (rs & w' & q0 & q1 & Hs & _ & Hle & Hpos & Hep & Hearly & Hlast).
  exists (length rs), rs, w'. repeat split; assumption.
Qed.

Lemma episode_runs_until_done_witness :
  constructed main_vs_competitor /\
  read_positions main_vs_competitor (world_at [0; 2]) = Some [0; 2] /\
  exists k rs w',
    (k <= 10)%nat /\
    (0 < 10 -> 0 < k)%nat /\
    length rs = k /\
    steps main_vs_competitor k (world_at [0; 2]) = (Returns rs, w') /\
    Driver.episode main_vs_competitor (seq 0 10) (world_at [0; 2]) =
      (zip_with line_of (seq 1 k) rs, (Returns tt, w')) /\
    (forall i r, rs !! i = Some r -> (S i < k)%nat -> result_done r = false) /\
    ((k < 10)%nat -> exists r, last rs = Some r /\ result_done r = true).
Proof.
  split; [apply constructed_main_vs_competitor | ].
  split; [reflexivity | ].
  apply (episode_runs_until_done main_vs_competitor (world_at [0; 2]) 0 2 10).
  - apply constructed_main_vs_competitor.
  - reflexivity.
Defined.

(** What a call of [step] that has returned tells of the positions. *)
Lemma step_inv (self : TwoAgentEnv.t) (w w' : World) (A0 A1 : NPCPolicy.t)
    (p0 p1 : Z) (r : TwoAgentEnv.step_result) :
  constructed self ->
  TwoAgentEnv.agent_policies self = [A0; A1] ->
  read_positions self w = Some [p0; p1] ->
  TwoAgentEnv.step self w = (Returns r, w') ->
  exists q0 q1,
    read_positions self w' = Some [q0; q1] /\
    (result_done r = true <-> q0 = 4 \/ q1 = 4) /\
    (q0 = Z.max 0 (p0 - 1) \/ q0 = Z.min 4 (p0 + 1)) /\
    (q1 = Z.max 0 (p1 - 1) \/ q1 = Z.min 4 (p1 + 1)) /\
    (never A0 0 -> q0 = Z.min 4 (p0 + 1)) /\
    (never A1 0 -> q1 = Z.min 4 (p1 + 1)) /\
    (always A0 0 -> q0 = Z.max 0 (p0 - 1)) /\
    (always A1 0 -> q1 = Z.max 0 (p1 - 1)).
Proof.
  intros Hc Hagents Hr Hstep. step_facts self w p0 p1 Hc Hr.
  assert (Hw : w'0 = w') by (rewrite Hstep in Hstep0; congruence). subst w'0.
  destruct (step_inversion self w w' A0 A1 p0 p1 _ _ r Hc Hagents Hr Hstep Hread)
    as (env & rs0 & rs1 & Hq0 & Hq1 & _ & Hdone & _).
  do 2 eexists. split; [exact Hread | ].
  split; [rewrite Hdone, orb_true_iff, !Z.eqb_eq; reflexivity | ].
  assert (Hcases : forall a p,
            move 5 a p = Z.max 0 (p - 1) \/ move 5 a p = Z.min 4 (p + 1))
    by (intros a p; unfold move; destruct (a =? 0); [left | right]; reflexivity).
  split; [rewrite Hq0 at 1 2; apply Hcases | ].
  split; [rewrite Hq1 at 1 2; apply Hcases | ].
  split; [intros Hn; rewrite Hq0 at 1; apply (move_right 5), Hn | ].
  split; [intros Hn; rewrite Hq1 at 1; apply (move_right 5), Hn | ].
  split; intros Ha; [rewrite Hq0 at 1 | rewrite Hq1 at 1]; rewrite Ha; reflexivity.
Qed.

Lemma steps_inv (self : TwoAgentEnv.t) (n : nat) (w w' : World)
    (rs : list TwoAgentEnv.step_result) :
  steps self (S n) w = (Returns rs, w') ->
  exists r w1 rs',
    TwoAgentEnv.step self w = (Returns r, w1) /\
    steps self n w1 = (Returns rs', w') /\
    rs = r :: rs'.
Proof.
  cbn [steps]. unfold Py.bind at 1.
  destruct (TwoAgentEnv.step self w) as [[r | e] w1]; [ | discriminate ].
  unfold Py.bind at 1.
  destruct (steps self n w1) as [[rs' | e] w''] eqn:Hs; [ | discriminate ].
  intros [= <- <-]. exists r, w1, rs'. repeat split. exact Hs.
Qed.

(** Two agents that always answer 0 and are not on the goal: no step of a
    run is done. *)
Lemma idle_steps_not_done (self : TwoAgentEnv.t) (A0 A1 : NPCPolicy.t) :
  constructed self ->
  TwoAgentEnv.agent_policies self = [A0; A1] ->
  always A0 0 ->
  always A1 0 ->
  forall n w w' p0 p1 rs,
    read_positions self w = Some [p0; p1] ->
    p0 < 4 -> p1 < 4 ->
    steps self n w = (Returns rs, w') ->
    Forall (fun r => result_done r = false) rs.
Proof.
  intros Hc Hagents H0 H1 n.
  induction n as [| n IH]; intros w w' p0 p1 rs Hr Hp0 Hp1 Hs.
  - injection Hs as <- _. constructor.
  - destruct (steps_inv self n w w' rs Hs) as (r & w1 & rs' & Hstep & Hs' & ->).
    destruct (step_inv self w w1 A0 A1 p0 p1 r Hc Hagents Hr Hstep)
      as (q0 & q1 & Hr1 & Hdone & _ & _ & _ & _ & Hq0 & Hq1).
    specialize (Hq0 H0). specialize (Hq1 H1).
    constructor.
    + destruct (result_done r); [ | reflexivity ].
      destruct (proj1 Hdone eq_refl); lia.
    + apply (IH w1 w' q0 q1 rs' Hr1); [lia | lia | exact Hs'].
Qed.

Lemma not_done (r : TwoAgentEnv.step_result) (q0 q1 : Z) :
  (result_done r = true <-> q0 = 4 \/ q1 = 4) ->
  result_done r = false -> q0 <> 4 /\ q1 <> 4.
Proof.
  intros Hd Hfalse. rewrite Hfalse in Hd.
  split; intros Hq; [assert (H : false = true) by (apply Hd; left; exact Hq)
                    | assert (H : false = true) by (apply Hd; right; exact Hq)];
    discriminate.
Qed.

(** How long the loop of the driver runs from a reset, by what the agents
    play. *)
Lemma episode_length (self : TwoAgentEnv.t) (A0 A1 : NPCPolicy.t)
    (w0 w' : World) (k : nat) (rs : list TwoAgentEnv.step_result) :
  constructed self ->
  TwoAgentEnv.agent_policies self = [A0; A1] ->
  read_positions self w0 = Some [0; 2] ->
  steps self k w0 = (Returns rs, w') ->
  (0 < k <= 10)%nat ->
  (forall i r, rs !! i = Some r -> (S i < k)%nat -> result_done r = false) ->
  ((k < 10)%nat -> exists r, last rs = Some r /\ result_done r = true) ->
  (2 <= k)%nat /\
  (never A0 0 -> k = 2%nat \/ k = 4%nat) /\
  (never A1 0 -> k = 2%nat) /\
  (always A0 0 -> always A1 0 -> k = 10%nat).
Proof.
  intros Hc Hagents Hr0 Hs Hk Hearly Hlast.
  assert (Hidle : always A0 0 -> always A1 0 -> k = 10%nat).
  { intros H0 H1. destruct (decide (k < 10)%nat) as [Hlt | ]; [ | lia ].
    destruct (Hlast Hlt) as (r & Hl & Hd).
    pose proof (idle_steps_not_done self A0 A1 Hc Hagents H0 H1 k w0 w' 0 2 rs
                  Hr0 ltac:(lia) ltac:(lia) Hs) as Hall.
    apply last_Some in Hl. destruct Hl as (rs' & ->).
    rewrite Forall_app, Forall_singleton in Hall. destruct Hall as (_ & Hall).
    rewrite Hd in Hall. discriminate. }
  destruct k as [| k1]; [lia | ].
  destruct (steps_inv self k1 w0 w' rs Hs) as (r1 & w1 & rs1 & Hstep1 & Hs1 & ->).
  destruct (step_inv self w0 w1 A0 A1 0 2 r1 Hc Hagents Hr0 Hstep1)
    as (x1 & y1 & Hr1 & Hd1 & Hx1 & Hy1 & Hnx1 & Hny1 & _ & _).
  destruct k1 as [| k2].
  { injection Hs1 as <- _.
    destruct Hlast as (r & Hl & Hd); [lia | ].
    injection Hl as <-. apply Hd1 in Hd. lia. }
  destruct (steps_inv self k2 w1 w' rs1 Hs1) as (r2 & w2 & rs2 & Hstep2 & Hs2 & ->).
  destruct (step_inv self w1 w2 A0 A1 x1 y1 r2 Hc Hagents Hr1 Hstep2)
    as (x2 & y2 & Hr2 & Hd2 & Hx2 & Hy2 & Hnx2 & Hny2 & _ & _).
  split; [lia | ]. split; [ | split; [ | exact Hidle ] ].
  - intros Hn. specialize (Hnx1 Hn). specialize (Hnx2 Hn).
    destruct k2 as [| k3]; [left; reflexivity | right ].
    pose proof (Hearly 1%nat r2 eq_refl ltac:(lia)) as Hf2.
    destruct (not_done r2 x2 y2 Hd2 Hf2) as (_ & Hy2').
    destruct (steps_inv self k3 w2 w' rs2 Hs2) as (r3 & w3 & rs3 & Hstep3 & Hs3 & ->).
    destruct (step_inv self w2 w3 A0 A1 x2 y2 r3 Hc Hagents Hr2 Hstep3)
      as (x3 & y3 & Hr3 & Hd3 & _ & Hy3 & Hnx3 & _ & _ & _).
    specialize (Hnx3 Hn).
    destruct k3 as [| k4].
    { injection Hs3 as <- _.
      destruct Hlast as (r & Hl & Hd); [lia | ].
      injection Hl as <-. apply Hd3 in Hd. lia. }
    destruct (steps_inv self k4 w3 w' rs3 Hs3) as (r4 & w4 & rs4 & Hstep4 & Hs4 & ->).
    destruct (step_inv self w3 w4 A0 A1 x3 y3 r4 Hc Hagents Hr3 Hstep4)
      as (x4 & y4 & Hr4 & Hd4 & _ & _ & Hnx4 & _ & _ & _).
    specialize (Hnx4 Hn).
    destruct k4 as [| k5]; [reflexivity | ].
    pose proof (Hearly 3%nat r4 eq_refl ltac:(lia)) as Hf4.
    destruct (not_done r4 x4 y4 Hd4 Hf4) as (Hx4' & _). lia.
  - intros Hn. specialize (Hny1 Hn). specialize (Hny2 Hn).
    destruct k2 as [| k3]; [reflexivity | ].
    pose proof (Hearly 1%nat r2 eq_refl ltac:(lia)) as Hf2.
    destruct (not_done r2 x2 y2 Hd2 Hf2) as (_ & Hy2'). lia.
Qed.

Lemma io_bind_returns {A B : Type} (m : Driver.IO A) (k : A -> Driver.IO B)
    (w w' : World) (out : list Driver.printed) (a : A) :
  m w = (out, (Returns a, w')) ->
  Driver.bind m k w = (out ++ fst (k a w'), snd (k a w')).
Proof. unfold Driver.bind. intros ->. reflexivity. Qed.

(** One matchup of the driver with two agents. *)
Lemma matchup_returns (title : string) (A0 A1 : NPCPolicy.t) (w : World) :
  exists rs w',
    Driver.matchup title [A0; A1] w =
      (Driver.Title title :: zip_with line_of (seq 1 (length rs)) rs,
       (Returns tt, w')) /\
    (2 <= length rs <= 10)%nat /\
    (never A0 0 -> length rs = 2%nat \/ length rs = 4%nat) /\
    (never A1 0 -> length rs = 2%nat) /\
    (always A0 0 -> always A1 0 -> length rs = 10%nat).
Proof.
  pose proof (init_returns [A0; A1] w eq_refl) as Hinit.
  set (self1 := TwoAgentEnv.mk 5 4 2 [A0; A1] (Some (length (heap w)))) in Hinit.
  set (w1 := mkWorld _ _) in Hinit.
  assert (Hc1 : constructed self1) by (repeat split).
  destruct (reset_ready self1 w1 Hc1) as (c & self0 & w0 & Hreset & Hc0 & Hag0 & Hr0).
  destruct (episode_from self0 Hc0 10 0 w0 0 2 Hr0)
    as (rs & w' & q0 & q1 & Hs & _ & Hle & Hpos & Hep & Hearly & Hlast).
  destruct (episode_length self0 A0 A1 w0 w' (length rs) rs Hc0 Hag0 Hr0 Hs
              ltac:(lia) Hearly Hlast) as (Hge & Hn0 & Hn1 & Hidle).
  exists rs, w'. split; [ | repeat split; solve [assumption | lia] ].
  unfold Driver.matchup. rewrite io_bind_print.
  rewrite (io_bind_lift _ _ _ _ _ Hinit), (io_bind_lift _ _ _ _ _ Hreset).
  cbn [snd]. rewrite Hep. reflexivity.
Qed.

(** X14. A matchup of the driver prints its title first.  With a list of
    agents that has not two elements, the constructor then raises: the
    title stays printed and nothing else is.  With two agents the matchup
    never raises and prints, after the title, the lines of an episode of
    [k] steps from a reset, with [k] from 2 to 10: 2 or 4 if the first
    agent never plays 0, 2 if the second agent never plays 0, and 10, the
    cap of the loop, if both always play 0. *)
Theorem matchup_prints_episode (title : string) (agents : list NPCPolicy.t)
    (w : World) :
  (length agents <> 2%nat ->
     Driver.matchup title agents w =
       ([Driver.Title title],
        (Raises (AssertionError "This environment expects exactly 2 agents."), w))) /\
  (forall A0 A1,
     agents = [A0; A1] ->
     exists k rs w',
       Driver.matchup title agents w =
         (Driver.Title title :: zip_with line_of (seq 1 k) rs, (Returns tt, w')) /\
       length rs = k /\
       (2 <= k <= 10)%nat /\
       (never A0 0 -> k = 2%nat \/ k = 4%nat) /\
       (never A1 0 -> k = 2%nat) /\
       (always A0 0 -> always A1 0 -> k = 10%nat)).
Proof.
  split.
  - intros Hne. unfold Driver.matchup. rewrite io_bind_print.
    unfold Driver.bind, Driver.lift, TwoAgentEnv.init.
    case_decide; [contradiction | reflexivity].
  - intros A0 A1 ->.
    destruct (matchup_returns title A0 A1 w) as (rs & w' & Hm & Hk & H0 & H1 & H00).
    exists (length rs), rs, w'. repeat split; solve [assumption | lia].
Qed.

Lemma matchup_prints_episode_witness :
  (Driver.matchup "Solo" [agent_main] (empty_world (fun _ => 0)) =
     ([Driver.Title "Solo"],
      (Raises (AssertionError "This environment expects exactly 2 agents."),
       empty_world (fun _ => 0)))) /\
  (exists k rs w',
     Driver.matchup "Duo" [agent_main; agent_dialogue] (empty_world (fun _ => 0)) =
       (Driver.Title "Duo" :: zip_with line_of (seq 1 k) rs, (Returns tt, w')) /\
     length rs = k /\
     (2 <= k <= 10)%nat /\
     (never agent_main 0 -> k = 2%nat \/ k = 4%nat) /\
     (never agent_dialogue 0 -> k = 2%nat) /\
     (always agent_main 0 -> always agent_dialogue 0 -> k = 10%nat)).
Proof.
  split.
  - apply (proj1 (matchup_prints_episode "Solo" [agent_main]
                    (empty_world (fun _ => 0)))).
    cbn. lia.
  - apply (proj2 (matchup_prints_episode "Duo" [agent_main; agent_dialogue]
                    (empty_world (fun _ => 0))) agent_main agent_dialogue).
    reflexivity.
Defined.

(** The main agent against the random agent, from a reset: the second
    step is done exactly when the two draws of the random agent are odd. *)
Lemma dialogue_second_step (self : TwoAgentEnv.t) (w w1 w2 : World)
    (r1 r2 : TwoAgentEnv.step_result) :
  constructed self ->
  TwoAgentEnv.agent_policies self = [agent_main; agent_dialogue] ->
  read_positions self w = Some [0; 2] ->
  TwoAgentEnv.step self w = (Returns r1, w1) ->
  TwoAgentEnv.step self w1 = (Returns r2, w2) ->
  (result_done r2 = true <->
   NpRandom.source (np_random w) (NpRandom.drawn (np_random w)) mod 2 = 1 /\
   NpRandom.source (np_random w) (S (NpRandom.drawn (np_random w))) mod 2 = 1).
Proof.
  intros Hc Hagents Hr H1 H2.
  set (m0 := NpRandom.source (np_random w) (NpRandom.drawn (np_random w)) mod 2).
  set (m1 := NpRandom.source (np_random w) (S (NpRandom.drawn (np_random w))) mod 2).
  assert (B0 : m0 = 0 \/ m0 = 1)
    by (pose proof (Z.mod_pos_bound
                      (NpRandom.source (np_random w) (NpRandom.drawn (np_random w))) 2);
        unfold m0; lia).
  assert (B1 : m1 = 0 \/ m1 = 1)
    by (pose proof (Z.mod_pos_bound
                      (NpRandom.source (np_random w)
                         (S (NpRandom.drawn (np_random w)))) 2);
        unfold m1; lia).
  (* the first step *)
  pose proof (step_constructed self w 0 2 Hc Hr) as S1. cbv zeta in S1.
  destruct S1 as (A0 & A1 & Hag & v1 & _ & Hs1 & Hr1 & _ & Hrng1).
  rewrite Hagents in Hag. injection Hag as <- <-.
  rewrite Hs1 in H1. injection H1 as _ <-. clear Hs1.
  change (NPCPolicy.policy_func agent_main) with ally_policy in Hr1, Hrng1.
  change (NPCPolicy.policy_func agent_dialogue) with dialogue_policy in Hr1, Hrng1.
  unfold ally_policy, dialogue_policy, NpRandom.randint in Hr1, Hrng1.
  cbn [fst snd] in Hr1, Hrng1. fold m0 in Hr1.
  (* the second step *)
  pose proof (step_constructed self v1 _ _ Hc Hr1) as S2. cbv zeta in S2.
  destruct S2 as (A0 & A1 & Hag & v2 & _ & Hs2 & _ & _ & _).
  rewrite Hagents in Hag. injection Hag as <- <-.
  rewrite Hs2 in H2. injection H2 as <- _. clear Hs2.
  unfold result_done. cbn [fst snd].
  change (NPCPolicy.policy_func agent_main) with ally_policy.
  change (NPCPolicy.policy_func agent_dialogue) with dialogue_policy.
  unfold ally_policy, dialogue_policy, NpRandom.randint. cbn [fst snd].
  rewrite Hrng1. cbn [NpRandom.source NpRandom.drawn]. fold m1.
  clearbody m0 m1.
  destruct B0 as [-> | ->], B1 as [-> | ->]; cbn; split;
    intros; try discriminate; try lia; try reflexivity.
Qed.

(** The matchup of the main agent with the random agent: the episode has
    2 steps if the next two draws are odd, and 4 steps otherwise. *)
Lemma dialogue_matchup (title : string) (w : World) :
  exists rs w',
    Driver.matchup title [agent_main; agent_dialogue] w =
      (Driver.Title title :: zip_with line_of (seq 1 (length rs)) rs,
       (Returns tt, w')) /\
    (length rs = 2%nat \/ length rs = 4%nat) /\
    (length rs = 2%nat <->
     NpRandom.source (np_random w) (NpRandom.drawn (np_random w)) mod 2 = 1 /\
     NpRandom.source (np_random w) (S (NpRandom.drawn (np_random w))) mod 2 = 1).
Proof.
  pose proof (init_returns [agent_main; agent_dialogue] w eq_refl) as Hinit.
  set (self1 := TwoAgentEnv.mk 5 4 2 _ (Some (length (heap w)))) in Hinit.
  set (w1 := mkWorld _ _) in Hinit.
  assert (Hc1 : constructed self1) by (repeat split).
  pose proof (reset_returns self1 w1) as Hreset.
  set (self0 := with_agents _ _) in Hreset. set (w0 := mkWorld _ _) in Hreset.
  assert (Hc0 : constructed self0) by (repeat split).
  assert (Hag0 : TwoAgentEnv.agent_policies self0 = [agent_main; agent_dialogue])
    by reflexivity.
  assert (Hr0 : read_positions self0 w0 = Some [0; 2])
    by (apply read_positions_fresh; reflexivity).
  change (np_random w) with (np_random w0).
  clearbody self0 w0. clear Hc1. clearbody self1 w1.
  destruct (episode_from self0 Hc0 10 0 w0 0 2 Hr0)
    as (rs & w' & q0 & q1 & Hs & _ & Hle & Hpos & Hep & Hearly & Hlast).
  assert (Hmain : never agent_main 0) by (intros env state rs'; discriminate).
  destruct (episode_length self0 agent_main agent_dialogue w0 w' (length rs) rs
              Hc0 Hag0 Hr0 Hs ltac:(lia) Hearly Hlast) as (Hge & Hn0 & _ & _).
  specialize (Hn0 Hmain).
  exists rs, w'. split; [ | split; [exact Hn0 | ] ].
  { unfold Driver.matchup. rewrite io_bind_print.
    rewrite (io_bind_lift _ _ _ _ _ Hinit), (io_bind_lift _ _ _ _ _ Hreset).
    cbn [snd]. rewrite Hep. reflexivity. }
  clear Hep Hinit Hreset Hn0.
  remember (length rs) as k eqn:Hk.
  destruct k as [| [| k]]; [lia | lia | ].
  destruct (steps_inv self0 _ w0 w' rs Hs) as (r1 & v1 & rs1 & Hstep1 & Hs1 & ->).
  destruct (steps_inv self0 _ v1 w' rs1 Hs1) as (r2 & v2 & rs2 & Hstep2 & Hs2 & ->).
  rewrite <- (dialogue_second_step self0 w0 v1 v2 r1 r2 Hc0 Hag0 Hr0 Hstep1 Hstep2).
  split.
  - intros [= ->]. destruct Hlast as (r & Hl & Hd); [lia | ].
    injection Hs2 as <- _. injection Hl as <-. exact Hd.
  - intros Hd. destruct k as [| k]; [reflexivity | ].
    pose proof (Hearly 1%nat _ eq_refl ltac:(lia)) as Hf.
    rewrite Hd in Hf. discriminate.
Qed.

(** X15. The program, run from an empty store with any random source,
    never raises.  It prints the first title and the four lines of the
    main agent against the competitor, the second title and the two lines
    of the main agent with the ally, and the third title followed by the
    lines of the episode with the random agent: two lines if the first
    two draws are odd, four lines otherwise. *)
Theorem main_output (draws : nat -> Z) :
  exists k rs w',
    Driver.main (empty_world draws) =
      ([Driver.Title "Main agent vs. Competitive NPC";
        step_line 1 [agent_main; agent_competitive] [1; 1]
          [PyFloat.minus_one; PyFloat.minus_one];
        step_line 2 [agent_main; agent_competitive] [2; 0]
          [PyFloat.zero; PyFloat.zero];
        step_line 3 [agent_main; agent_competitive] [3; 0]
          [PyFloat.zero; PyFloat.zero];
        step_line 4 [agent_main; agent_competitive] [4; 0]
          [PyFloat.one; PyFloat.zero]] ++
       [Driver.Title (Driver.newline ++ "Main agent + Ally NPC");
        step_line 1 [agent_main; agent_ally] [1; 3] [PyFloat.zero; PyFloat.zero];
        step_line 2 [agent_main; agent_ally] [2; 4] [PyFloat.zero; PyFloat.one]] ++
       Driver.Title (Driver.newline ++ "Main agent + Dialogue NPC") ::
         zip_with line_of (seq 1 k) rs,
       (Returns tt, w')) /\
    length rs = k /\
    (k = 2%nat \/ k = 4%nat) /\
    (k = 2%nat <-> draws 0%nat mod 2 = 1 /\ draws 1%nat mod 2 = 1).
Proof.
  set (t1 := "Main agent vs. Competitive NPC"%string).
  set (t2 := (Driver.newline ++ "Main agent + Ally NPC")%string).
  set (t3 := (Driver.newline ++ "Main agent + Dialogue NPC")%string).
  set (out1 := [Driver.Title t1; _; _; _; _]).
  set (out2 := [Driver.Title t2; _; _]).
  set (W1 := snd (snd (Driver.matchup t1 [agent_main; agent_competitive]
                         (empty_world draws)))).
  assert (E1 : Driver.matchup t1 [agent_main; agent_competitive] (empty_world draws) =
               (out1, (Returns tt, W1)))
    by (vm_compute; reflexivity).
  set (W2 := snd (snd (Driver.matchup t2 [agent_main; agent_ally] W1))).
  assert (E2 : Driver.matchup t2 [agent_main; agent_ally] W1 =
               (out2, (Returns tt, W2)))
    by (vm_compute; reflexivity).
  assert (Hrng : np_random W2 = NpRandom.mkRandomState draws 0)
    by (vm_compute; reflexivity).
  destruct (dialogue_matchup t3 W2) as (rs & w' & E3 & Hk & Hdraws).
  rewrite Hrng in Hdraws. cbn [NpRandom.source NpRandom.drawn] in Hdraws.
  exists (length rs), rs, w'.
  split; [ | split; [reflexivity | split; [exact Hk | exact Hdraws] ] ].
  unfold Driver.main. fold t1 t2 t3.
  rewrite (io_bind_returns _ _ _ _ _ _ E1), (io_bind_returns _ _ _ _ _ _ E2), E3.
  reflexivity.
Qed.

(** ** [NPCPolicy.__repr__] *)

Lemma append_cancel_l (s a b : string) :
  (s ++ a = s ++ b)%string -> a = b.
Proof.
  induction s as [| c s IH]; cbn; [intros H; exact H | ].
  intros [= H]. apply IH, H.
Qed.

Lemma append_cancel_r (a b t : string) :
  t <> EmptyString -> (a ++ t = b ++ t)%string -> a = b.
Proof.
  intros Ht. revert b.
  assert (Hlen : forall x, String.length (x ++ t) = (String.length x + String.length t)%nat).
  { induction x as [| c x IH]; [reflexivity | ].
    change (S (String.length (x ++ t)) = S (String.length x + String.length t)).
    rewrite IH. reflexivity. }
  assert (Hpos : (0 < String.length t)%nat)
    by (destruct t; [contradiction | cbn; lia]).
  induction a as [| c a IH]; intros [| c' b] H.
  - reflexivity.
  - apply (f_equal String.length) in H. rewrite !Hlen in H.
    cbn [String.length] in H. lia.
  - apply (f_equal String.length) in H. rewrite !Hlen in H.
    cbn [String.length] in H. lia.
  - change (String c (a ++ t) = String c' (b ++ t))%string in H.
    injection H as -> H. f_equal. apply IH, H.
Qed.

(** A text without the character [c], followed by [c], is read back up
    to that [c]. *)
Lemma split_at_first (c : Ascii.ascii) (a b x y : string) :
  occurs c a = false -> occurs c b = false ->
  (a ++ String c x = b ++ String c y)%string ->
  a = b /\ x = y.
Proof.
  revert b. induction a as [| d a IH]; intros [| d' b] Ha Hb H; cbn in *.
  - injection H as H. split; [reflexivity | exact H].
  - injection H as -> _. rewrite Ascii.eqb_refl in Hb. discriminate.
  - injection H as -> _. rewrite Ascii.eqb_refl in Ha. discriminate.
  - injection H as -> H.
    destruct (Ascii.eqb c d'); [discriminate | ].
    destruct (IH b Ha Hb H) as (-> & ->). split; reflexivity.
Qed.

(** X16. The text of [__repr__] shows the role and the name, and nothing
    of the decision function or of the goal.  When the roles hold no
    comma, the text determines both the role and the name; in general it
    does not: two policies that differ in role and in name can have the
    same text. *)
Theorem repr_reads_back :
  (forall p q,
     NPCPolicy.role p = NPCPolicy.role q ->
     NPCPolicy.name p = NPCPolicy.name q ->
     NPCPolicy.__repr__ p = NPCPolicy.__repr__ q) /\
  (forall p q,
     occurs comma (NPCPolicy.role p) = false ->
     occurs comma (NPCPolicy.role q) = false ->
     NPCPolicy.__repr__ p = NPCPolicy.__repr__ q ->
     NPCPolicy.role p = NPCPolicy.role q /\ NPCPolicy.name p = NPCPolicy.name q) /\
  (exists p q,
     NPCPolicy.__repr__ p = NPCPolicy.__repr__ q /\
     NPCPolicy.role p <> NPCPolicy.role q /\
     NPCPolicy.name p <> NPCPolicy.name q).
Proof.
  split; [ | split ].
  - intros p q Hrole Hname. unfold NPCPolicy.__repr__. rewrite Hrole, Hname.
    reflexivity.
  - intros p q Hp Hq H. unfold NPCPolicy.__repr__ in H.
    apply append_cancel_l in H.
    change (", name=" ++ NPCPolicy.name p ++ ")")%string
      with (String comma (" name=" ++ NPCPolicy.name p ++ ")")) in H.
    change (", name=" ++ NPCPolicy.name q ++ ")")%string
      with (String comma (" name=" ++ NPCPolicy.name q ++ ")")) in H.
    destruct (split_at_first _ _ _ _ _ Hp Hq H) as (Hrole & Hrest).
    split; [exact Hrole | ].
    apply append_cancel_l in Hrest.
    apply (append_cancel_r _ _ ")"); [discriminate | exact Hrest].
  - exists (NPCPolicy.init (Some "a, name=b"%string) None None (Some "c"%string)),
           (NPCPolicy.init (Some "a"%string) None None (Some "b, name=c"%string)).
    split; [reflexivity | ]. split; discriminate.
Qed.

Lemma repr_reads_back_witness :
  occurs comma (NPCPolicy.role agent_main) = false /\
  occurs comma
    (NPCPolicy.role
       (NPCPolicy.init (Some "Main"%string) None (Some 3)
          (Some "main_agent"%string))) = false /\
  NPCPolicy.__repr__ agent_main =
    NPCPolicy.__repr__
      (NPCPolicy.init (Some "Main"%string) None (Some 3) (Some "main_agent"%string)) /\
  NPCPolicy.role agent_main =
    NPCPolicy.role
      (NPCPolicy.init (Some "Main"%string) None (Some 3) (Some "main_agent"%string)) /\
  NPCPolicy.name agent_main =
    NPCPolicy.name
      (NPCPolicy.init (Some "Main"%string) None (Some 3) (Some "main_agent"%string)).
Proof.
  split; [reflexivity | ]. split; [reflexivity | ]. split; [reflexivity | ].
  apply (proj1 (proj2 repr_reads_back) agent_main
           (NPCPolicy.init (Some "Main"%string) None (Some 3)
              (Some "main_agent"%string)));
    reflexivity.
Defined.
